(** * videodb-python: the HTTP client layer and the upload helper

    A shallow embedding of [videodb/_utils/_http_client.py] (class
    [HttpClient]) and of [videodb/_upload.py] (function [upload]).

    Python values that travel through the client (decoded JSON bodies,
    keyword arguments, payloads) are an inductive type [pyval]; a [dict]
    with string keys is a [gmap string pyval].  Code that talks to the
    network, reads the clock or opens files is written in a small state
    and exception monad [M] over a [World]: the world holds what the
    environment will answer, and records what the code asked for. *)

From stdpp Require Import gmap strings list pretty.
From Stdlib Require Import ZArith Ascii.

Set Warnings "-register-all".
Open Scope Z_scope.

(** ** Python values *)

(** What [json.loads] produces and what the code passes around.  Numbers
    are the integers; a dict has string keys. *)
Inductive pyval : Type :=
| PyNone
| PyBool (b : bool)
| PyInt (n : Z)
| PyStr (s : string)
| PyList (items : list pyval)
| PyDict (entries : gmap string pyval).

(** Python's truth value of an object: [bool(v)]. *)
Definition truthy (v : pyval) : bool :=
  match v with
  | PyNone => false
  | PyBool b => b
  | PyInt n => negb (n =? 0)
  | PyStr s => negb (bool_decide (s = ""))
  | PyList items => negb (bool_decide (length items = 0%nat))
  | PyDict entries => negb (bool_decide (size entries = 0%nat))
  end.

(** [a or b]. *)
Definition py_or (a b : pyval) : pyval := if truthy a then a else b.

(** [v == s] for a string constant [s]: only a [str] with the same
    characters is equal to it. *)
Definition py_eq_str (v : pyval) (s : string) : bool :=
  match v with
  | PyStr s' => bool_decide (s' = s)
  | _ => false
  end.

(** Truth value of an [Optional[str]] argument ([None] or a string). *)
Definition truthy_opt (x : option string) : bool :=
  match x with
  | Some s => negb (bool_decide (s = ""))
  | None => false
  end.

(** [x or fallback] on an [Optional[str]]. *)
Definition str_or (x : option string) (fallback : string) : string :=
  match x with
  | Some s => if bool_decide (s = "") then fallback else s
  | None => fallback
  end.

(** An [Optional[str]] as a value. *)
Definition of_opt (x : option string) : pyval :=
  match x with
  | Some s => PyStr s
  | None => PyNone
  end.

(** [repr] of lists and dicts is the interpreter's; the development is
    parametric in it. *)
Class Builtins := { py_repr : pyval -> string }.

(** [str(v)], which is what an f-string field [{v}] expands to. *)
Definition py_str `{Builtins} (v : pyval) : string :=
  match v with
  | PyNone => "None"
  | PyBool true => "True"
  | PyBool false => "False"
  | PyInt n => pretty n
  | PyStr s => s
  | PyList _ | PyDict _ => py_repr v
  end.

(** [s.split(sep)] for a one-character separator: the pieces between the
    occurrences of [sep], in order (never an empty list). *)
Fixpoint str_split (sep : ascii) (s : string) : list string :=
  match s with
  | EmptyString => [EmptyString]
  | String c rest =>
      if bool_decide (c = sep) then EmptyString :: str_split sep rest
      else match str_split sep rest with
           | piece :: pieces => String c piece :: pieces
           | [] => [String c EmptyString]
           end
  end.

(** [s.startswith(p)]. *)
Definition startswith (s p : string) : bool := String.prefix p s.

(** ** Responses and exceptions *)

(** A [requests.Response], as far as the client reads it: the status line,
    the URL it answers, the raw body, and what [response.json()] gives
    ([None] when the body is not JSON and [json()] raises). *)
Record Response := {
  status_code : Z;
  reason : string;
  resp_url : string;
  text : string;
  json_body : option pyval
}.

(** The classes of [requests.exceptions] the code tells apart.
    [ConnectTimeout] is both a [ConnectionError] and a [Timeout];
    [MissingSchema] (like [InvalidURL] and [InvalidSchema]) is also a
    [ValueError]. *)
Inductive requests_class :=
| HTTPError
| RetryError
| Timeout
| ConnectTimeout
| ConnectionError
| MissingSchema
| OtherRequestException.

(** A [requests.exceptions.RequestException]: its class, [str(e)] and
    [e.response]. *)
Record RequestException := {
  cls : requests_class;
  description : string;
  response : option Response
}.

(** The exceptions that occur.  [AuthenticationError], [InvalidRequestError]
    and [VideodbError] are the library's own ([videodb.exceptions]);
    [PyException] is the builtin [Exception]. *)
Inductive exn :=
| AuthenticationError (message : string) (resp : option Response)
| InvalidRequestError (message : string) (resp : option Response)
| VideodbError (message : string) (cause : option exn)
| PyException (message : string)
| ValueError
| AttributeError
| TypeError
| FileNotFoundError
| Requests (e : RequestException).

Definition isinstance_HTTPError (e : RequestException) : bool :=
  match cls e with HTTPError => true | _ => false end.

Definition isinstance_RetryError (e : RequestException) : bool :=
  match cls e with RetryError => true | _ => false end.

Definition isinstance_Timeout (e : RequestException) : bool :=
  match cls e with Timeout | ConnectTimeout => true | _ => false end.

Definition isinstance_ConnectionError (e : RequestException) : bool :=
  match cls e with ConnectionError | ConnectTimeout => true | _ => false end.

(** [isinstance(e, ValueError)]. *)
Definition isinstance_ValueError (e : exn) : bool :=
  match e with
  | ValueError => true
  | Requests r => match cls r with MissingSchema => true | _ => false end
  | _ => false
  end.

(** The library's error taxonomy: the errors a caller is meant to catch. *)
Definition typed_error (e : exn) : bool :=
  match e with
  | AuthenticationError _ _ | InvalidRequestError _ _ | VideodbError _ _ => true
  | _ => false
  end.

(** ** The world *)

Inductive Verb := GET | POST | PUT | DELETE | PATCH.

(** One call of an HTTP method of [requests]: [headers] and [timeout] are
    [None] when the call passes none (a plain call). *)
Record Request := {
  rq_verb : Verb;
  rq_url : pyval;
  rq_headers : option (gmap string string);
  rq_timeout : option pyval;
  rq_kwargs : gmap string pyval
}.

Inductive outcome (A : Type) :=
| Returns (a : A)
| Raises (e : exn).
Arguments Returns {A} a.
Arguments Raises {A} e.

(** [wire]: the outcome of each coming HTTP call, in order (a response, or
    the exception the call raises; the transport's own retries are inside
    one call).  [clock]: the coming readings of the polling loop's elapsed
    time, in microseconds (the resolution of [timedelta]).  [requested]:
    the HTTP calls made so far, oldest first.  [files]: the readable files
    by path. *)
Record World := {
  wire : list (outcome Response);
  clock : list Z;
  requested : list Request;
  files : gmap string string
}.

(** A computation: from a world to an outcome and the world after it;
    [None] when the environment's script has no further answer. *)
Definition M (A : Type) : Type := World -> option (outcome A * World).

Definition ret {A} (a : A) : M A := fun w => Some (Returns a, w).

Definition raise {A} (e : exn) : M A := fun w => Some (Raises e, w).

Definition bind {A B} (m : M A) (k : A -> M B) : M B :=
  fun w =>
    match m w with
    | Some (Returns a, w') => k a w'
    | Some (Raises e, w') => Some (Raises e, w')
    | None => None
    end.

Notation "'let*' x ':=' m 'in' k" := (bind m (fun x => k))
  (at level 10, x name, m at level 100, k at level 200).

(** [try: body except ...]: [handler e] is the matching [except] clause's
    body, [None] when no clause matches and [e] propagates. *)
Definition try_except {A} (body : M A) (handler : exn -> option (M A)) : M A :=
  fun w =>
    match body w with
    | Some (Raises e, w') =>
        match handler e with
        | Some h => h w'
        | None => Some (Raises e, w')
        end
    | other => other
    end.

(** The world after the calls [rqs] were made and answered, [later] being
    what is left of the wire. *)
Definition answered (rqs : list Request) (later : list (outcome Response))
    (w : World) : World :=
  {| wire := later; clock := clock w;
     requested := requested w ++ rqs; files := files w |}.

(** One HTTP call: logged, and answered by the next entry of the wire. *)
Definition http_call (rq : Request) : M Response :=
  fun w =>
    match wire w with
    | [] => None
    | answer :: later => Some (answer, answered [rq] later w)
    end.

(** [session.get(url)] with no other argument. *)
Definition plain_get (url : pyval) : Request :=
  {| rq_verb := GET; rq_url := url; rq_headers := None;
     rq_timeout := None; rq_kwargs := ∅ |}.

(** The next reading of the elapsed time. *)
Definition read_elapsed : M Z :=
  fun w =>
    match clock w with
    | [] => None
    | t :: later =>
        Some (Returns t, {| wire := wire w; clock := later;
                            requested := requested w; files := files w |})
    end.

(** [open(path, "rb")] and reading the file. *)
Definition open_rb (path : string) : M string :=
  fun w =>
    match files w !! path with
    | Some content => Some (Returns content, w)
    | None => Some (Raises FileNotFoundError, w)
    end.

(** [response.json()]. *)
Definition Response_json (r : Response) : M pyval :=
  match json_body r with
  | Some v => ret v
  | None => raise ValueError
  end.

(** [requests]' message of the [HTTPError] of a 4xx or 5xx response. *)
Definition http_error_msg (r : Response) : string :=
  pretty (status_code r)
  +:+ (if status_code r <? 500 then " Client Error: " else " Server Error: ")
  +:+ reason r +:+ " for url: " +:+ resp_url r.

(** The status codes for which [raise_for_status] raises: 400 to 599. *)
Definition http_error_status (r : Response) : bool :=
  (400 <=? status_code r) && (status_code r <? 600).

(** [response.raise_for_status()]: an [HTTPError] carrying the response
    for a 4xx or 5xx status code, nothing otherwise. *)
Definition raise_for_status (r : Response) : M unit :=
  if http_error_status r
  then raise (Requests {| cls := HTTPError; description := http_error_msg r;
                          response := Some r |})
  else ret tt.

(** [o.get(key, default)]: only a dict has [get]. *)
Definition py_get (o : pyval) (key : string) (dflt : pyval) : M pyval :=
  match o with
  | PyDict entries => ret (default dflt (entries !! key))
  | _ => raise AttributeError
  end.

(** ** Constants of [videodb._constants] and of the process environment *)

(** The values of [videodb._constants] the two modules read ([Status],
    [HttpClientDefaultValues], [ApiPath]); the development is parametric
    in them. *)
Class Constants := {
  Status_processing : string;
  Status_in_progress : string;
  HttpClientDefaultValues_timeout : pyval;
  ApiPath_collection : string;
  ApiPath_upload_url : string;
  ApiPath_upload : string
}.

(** [os.environ] when [videodb._upload] is imported. *)
Class Environ := { os_environ : gmap string string }.

(** ** [backoff.on_exception] *)

(** The retry loop of [backoff.on_exception(wait_gen, Exception,
    max_time=...)]: each try first reads the elapsed time, then calls the
    target; an exception is raised again when that reading had reached
    [max_time] seconds, and otherwise the loop sleeps and tries again.
    The sleeps show only in the later readings of the clock.  [fuel]
    bounds the tries; [on_exception] gives one more than the clock has
    readings, so the loop stops on the clock and never on the fuel. *)
Fixpoint retry_loop {A} (max_time : Z) (target : M A) (fuel : nat) : M A :=
  match fuel with
  | O => fun _ => None
  | S fuel' =>
      let* elapsed := read_elapsed in
      try_except target
        (fun e => Some (if max_time * 1000000 <=? elapsed then raise e
                        else retry_loop max_time target fuel'))
  end.

Definition on_exception {A} (max_time : Z) (target : M A) : M A :=
  fun w => retry_loop max_time target (S (length (clock w))) w.

(** ** [class HttpClient] *)

(** The client's state: [self.base_url] and [self.session.headers]. *)
Record HttpClient := {
  base_url : string;
  session_headers : gmap string string
}.

Module Client.
Section Client.
Context `{Builtins} `{Constants}.

(** The body of [_get_output], one try. *)
Definition _get_output_try (url : pyval) : M pyval :=
  let* response := http_call (plain_get url) in
  let* response_json := Response_json response in
  let* status := py_get response_json "status" PyNone in
  let* pending :=
    (if py_eq_str status Status_in_progress then ret true
     else let* status := py_get response_json "status" PyNone in
          ret (py_eq_str status Status_processing)) in
  if pending : bool then raise (PyException "Stuck on processing status")
  else let* inner := py_get response_json "response" PyNone in
       ret (py_or inner response_json).

(** [_get_output], under its decorator
    [@backoff.on_exception(backoff.expo, Exception, max_time=500)]. *)
Definition _get_output (url : pyval) : M pyval :=
  on_exception 500 (_get_output_try url).

(** [response_json.get("status") == Status.processing and
    response_json.get("request_type", "sync") == kind]. *)
Definition processing_with (response_json : pyval) (kind : string) : M bool :=
  let* status := py_get response_json "status" PyNone in
  if py_eq_str status Status_processing then
    let* request_type := py_get response_json "request_type" (PyStr "sync") in
    ret (py_eq_str request_type kind)
  else ret false.

(** The [if success: return data, else: raise InvalidRequestError] that
    ends both the polled and the direct path of [_parse_response]. *)
Definition data_or_invalid (response_json : pyval) (response : Response) : M pyval :=
  let* success := py_get response_json "success" PyNone in
  if truthy success then py_get response_json "data" PyNone
  else
    let* message := py_get response_json "message" PyNone in
    raise (InvalidRequestError ("Invalid request: " +:+ py_str message) (Some response)).

Definition _parse_response (response : Response) : M pyval :=
  try_except
    (let* response_json := Response_json response in
     let* is_async := processing_with response_json "async" in
     if is_async : bool then ret PyNone
     else
       let* is_sync := processing_with response_json "sync" in
       if is_sync : bool then
         let* data := py_get response_json "data" PyNone in
         let* output_url := py_get data "output_url" PyNone in
         let* response_json := _get_output output_url in
         data_or_invalid response_json response
       else data_or_invalid response_json response)
    (fun e =>
       if isinstance_ValueError e
       then Some (raise (InvalidRequestError ("Invalid request: " +:+ text response)
                                             (Some response)))
       else None).

(** The [try ... except ValueError] of [_handle_request_error] that picks
    the message of an HTTP error. *)
Definition error_message_of (e : RequestException) : M pyval :=
  try_except
    (match response e with
     | Some r =>
         let* body := Response_json r in
         py_get body "message" (PyStr "Unknown error")
     | None => raise AttributeError
     end)
    (fun err =>
       if isinstance_ValueError err
       then Some (match response e with
                  | Some r => ret (PyStr (text r))
                  | None => raise AttributeError
                  end)
       else None).

Definition _handle_request_error (e : RequestException) : M pyval :=
  if isinstance_HTTPError e then
    let* error_message := error_message_of e in
    match response e with
    | Some r =>
        if status_code r =? 401
        then raise (AuthenticationError ("Error: " +:+ py_str error_message) (response e))
        else raise (InvalidRequestError ("Invalid request: " +:+ py_str error_message)
                                        (response e))
    | None => raise AttributeError
    end
  else if isinstance_RetryError e then
    raise (InvalidRequestError "Invalid request: Max retries exceeded" (response e))
  else if isinstance_Timeout e then
    raise (InvalidRequestError "Invalid request: Request timed out" (response e))
  else if isinstance_ConnectionError e then
    raise (InvalidRequestError "Invalid request: Connection error" (response e))
  else
    raise (InvalidRequestError ("Invalid request: " +:+ description e) (response e)).

(** The request [_make_request] sends: the URL under the base URL, the
    session's headers overridden by the call's, the [timeout] keyword or
    the default, and the remaining keywords. *)
Definition request_of (self : HttpClient) (method : Verb) (path : string)
    (base_url_arg : option string) (headers : option (gmap string string))
    (kwargs : gmap string pyval) : Request :=
  {| rq_verb := method;
     rq_url := PyStr (str_or base_url_arg (base_url self) +:+ "/" +:+ path);
     rq_headers := Some (default ∅ headers ∪ session_headers self);
     rq_timeout := Some (default HttpClientDefaultValues_timeout (kwargs !! "timeout"));
     rq_kwargs := delete "timeout" kwargs |}.

Definition _make_request (self : HttpClient) (method : Verb) (path : string)
    (base_url_arg : option string) (headers : option (gmap string string))
    (kwargs : gmap string pyval) : M pyval :=
  try_except
    (let* response := http_call (request_of self method path base_url_arg headers kwargs) in
     let* _ := raise_for_status response in
     _parse_response response)
    (fun e =>
       match e with
       | Requests r => Some (_handle_request_error r)
       | _ => None
       end).

(** The keyword [json=data] added to [**kwargs]: a second [json] keyword
    is a [TypeError]. *)
Definition with_json (data : pyval) (kwargs : gmap string pyval) : M (gmap string pyval) :=
  match kwargs !! "json" with
  | Some _ => raise TypeError
  | None => ret (<["json" := data]> kwargs)
  end.

Definition get (self : HttpClient) (path : string) (base_url_arg : option string)
    (headers : option (gmap string string)) (kwargs : gmap string pyval) : M pyval :=
  _make_request self GET path base_url_arg headers kwargs.

Definition post (self : HttpClient) (path : string) (data : pyval)
    (base_url_arg : option string) (headers : option (gmap string string))
    (kwargs : gmap string pyval) : M pyval :=
  let* kwargs := with_json data kwargs in
  _make_request self POST path base_url_arg headers kwargs.

Definition put (self : HttpClient) (path : string) (data : pyval)
    (base_url_arg : option string) (headers : option (gmap string string))
    (kwargs : gmap string pyval) : M pyval :=
  let* kwargs := with_json data kwargs in
  _make_request self PUT path base_url_arg headers kwargs.

Definition delete (self : HttpClient) (path : string) (base_url_arg : option string)
    (headers : option (gmap string string)) (kwargs : gmap string pyval) : M pyval :=
  _make_request self DELETE path base_url_arg headers kwargs.

Definition patch (self : HttpClient) (path : string) (data : pyval)
    (base_url_arg : option string) (headers : option (gmap string string))
    (kwargs : gmap string pyval) : M pyval :=
  let* kwargs := with_json data kwargs in
  _make_request self PATCH path base_url_arg headers kwargs.

End Client.
End Client.

(** ** [videodb/_upload.py] *)

(** The [_connection] argument of [upload]: an [HttpClient] that also
    knows its collection and user. *)
Record Connection := {
  client : HttpClient;
  collection_id : string;
  user_id : string
}.

Section Upload.
Context `{Builtins} `{Constants} `{Environ}.

Definition STREAMING_API : string :=
  default "https://vcmgicsv1d.execute-api.us-east-1.amazonaws.com"
          (os_environ !! "STREAMING_API").

Definition SEGMENT_DURATION : pyval :=
  match os_environ !! "SEGMENT_DURATION" with
  | Some s => PyStr s
  | None => PyInt 1
  end.

Definition SEGMENT_TYPE : string := default "fmp4" (os_environ !! "SEGMENT_TYPE").

(** [file_path.split("/")[-1].split(".")[0]]. *)
Definition name_of_path (file_path : string) : string :=
  hd "" (str_split "."%char (List.last (str_split "/"%char file_path) "")).

(** [requests.post(url, **kwargs)], outside the client's session. *)
Definition requests_post (url : pyval) (kwargs : gmap string pyval) : M Response :=
  http_call {| rq_verb := POST; rq_url := url; rq_headers := None;
               rq_timeout := None; rq_kwargs := kwargs |}.

(** The [except HTTPError] clause of both [try] blocks of [upload]. *)
Definition except_HTTPError {A} (e : exn) : option (M A) :=
  match e with
  | Requests r =>
      if isinstance_HTTPError r
      then Some (raise (VideodbError "Error while uploading file" (Some e)))
      else None
  | _ => None
  end.

(** The [if file_path:] block: the name and the URL it leaves. *)
Definition upload_file (_connection : Connection) (file_path : string)
    (name : option string) : M (string * pyval) :=
  try_except
    (let name := if truthy_opt name then default "" name else name_of_path file_path in
     let* upload_url_data :=
       Client.get (client _connection)
         (ApiPath_collection +:+ "/" +:+ collection_id _connection +:+ "/" +:+ ApiPath_upload_url)
         None None {["params" := PyDict {["name" := PyStr name]}]} in
     let* upload_url := py_get upload_url_data "upload_url" PyNone in
     let* file := open_rb file_path in
     let files := PyDict {["file" := PyList [PyStr name; PyStr file]]} in
     let* response := requests_post upload_url {["files" := files]} in
     let* _ := raise_for_status response in
     ret (name, upload_url))
    (fun e =>
       match e with
       | FileNotFoundError => Some (raise (VideodbError "File not found" (Some e)))
       | _ => except_HTTPError e
       end).

(** The streaming side call after the upload is registered. *)
Definition upload_stream (_connection : Connection) (url : pyval)
    (upload_data : pyval) : M pyval :=
  try_except
    (let* media_id := py_get upload_data "id" (PyStr "") in
     match media_id with
     | PyStr id =>
         if startswith id "m-" then
           let* streaming_data :=
             requests_post (PyStr (STREAMING_API +:+ "/upload"))
               {["json" := PyDict (<["url" := url]>
                                   (<["media_id" := media_id]>
                                   (<["user_id" := PyStr (user_id _connection)]>
                                   (<["segment_duration" := SEGMENT_DURATION]>
                                   (<["segment_type" := PyStr SEGMENT_TYPE]> ∅)))))]} in
           let* _ := raise_for_status streaming_data in
           let* streaming_data := Response_json streaming_data in
           let* stream_url := py_get streaming_data "stream_url" PyNone in
           match upload_data with
           | PyDict entries => ret (PyDict (<["stream_url" := stream_url]> entries))
           | _ => raise TypeError
           end
         else ret upload_data
     | _ => raise AttributeError
     end)
    except_HTTPError.

Definition upload (_connection : Connection) (file_path url media_type name
    description callback_url : option string) : M pyval :=
  if negb (truthy_opt file_path) && negb (truthy_opt url) then
    raise (VideodbError "Either file_path or url is required" None)
  else if truthy_opt file_path && truthy_opt url then
    raise (VideodbError "Only one of file_path or url is allowed" None)
  else
    let* named :=
      (if truthy_opt file_path
       then let* r := upload_file _connection (default "" file_path) name in
            ret (PyStr r.1, r.2)
       else ret (of_opt name, of_opt url)) in
    let* upload_data :=
      Client.post (client _connection)
        (ApiPath_collection +:+ "/" +:+ collection_id _connection +:+ "/" +:+ ApiPath_upload)
        (PyDict (<["url" := named.2]>
                (<["name" := named.1]>
                (<["description" := of_opt description]>
                (<["callback_url" := of_opt callback_url]>
                (<["media_type" := of_opt media_type]> ∅))))))
        None None ∅ in
    upload_stream _connection named.2 upload_data.

End Upload.

(** ** Vocabulary of the statements *)

(** A decoded body whose status keeps the polling loop going. *)
Definition pending_body `{Constants} (v : pyval) : bool :=
  match v with
  | PyDict entries =>
      py_eq_str (default PyNone (entries !! "status")) Status_in_progress
      || py_eq_str (default PyNone (entries !! "status")) Status_processing
  | _ => false
  end.

(** An answer of the polling endpoint that reports a pending job. *)
Definition pending_answer `{Constants} (a : outcome Response) : bool :=
  match a with
  | Returns r => match json_body r with Some v => pending_body v | None => false end
  | Raises _ => false
  end.

(** The envelope the polled path goes on with: the terminal body's
    [response] field when that is truthy, the terminal body otherwise. *)
Definition effective_envelope (terminal : gmap string pyval) : pyval :=
  py_or (default PyNone (terminal !! "response")) (PyDict terminal).

(** What a try of [_get_output] raises on a pending job. *)
Definition stuck : exn := PyException "Stuck on processing status".

(** The two typed errors of an HTTP error, by status code. *)
Definition http_error_of (r : Response) (error_message : string) : exn :=
  if status_code r =? 401
  then AuthenticationError ("Error: " +:+ error_message) (Some r)
  else InvalidRequestError ("Invalid request: " +:+ error_message) (Some r).

(** The message of one of the library's errors. *)
Definition exn_message (e : exn) : option string :=
  match e with
  | AuthenticationError m _ | InvalidRequestError m _ | VideodbError m _ => Some m
  | _ => None
  end.

(** The message of the library error a run ends with, if it ends so. *)
Definition raised_message {A} (run : option (outcome A * World)) : option string :=
  match run with
  | Some (Raises e, _) => exn_message e
  | _ => None
  end.

(** [needle in hay] on strings. *)
Fixpoint str_contains (hay needle : string) : bool :=
  String.prefix needle hay
  || match hay with
     | EmptyString => false
     | String _ rest => str_contains rest needle
     end.

(** The message rule in the words of the specification: the body's
    [message] field if present, else the raw body text, else the generic
    "Unknown error". *)
Definition spec_error_message `{Builtins} (r : Response) : string :=
  match json_body r with
  | Some (PyDict entries) =>
      match entries !! "message" with
      | Some m => py_str m
      | None => if bool_decide (text r = "") then "Unknown error" else text r
      end
  | _ => if bool_decide (text r = "") then "Unknown error" else text r
  end.

(** ** Sample data for the closed instances *)

Module Sample.

(** A stand-in for [repr]; no sample formats a list or a dict. *)
Definition builtins : Builtins := {| py_repr := fun _ => "..." |}.

Definition constants : Constants :=
  {| Status_processing := "processing";
     Status_in_progress := "in progress";
     HttpClientDefaultValues_timeout := PyInt 30;
     ApiPath_collection := "collection";
     ApiPath_upload_url := "upload_url";
     ApiPath_upload := "upload" |}.

Definition environ : Environ := {| os_environ := ∅ |}.

Definition http : HttpClient :=
  {| base_url := "https://api.example";
     session_headers := {["x-access-token" := "key"]} |}.

Definition connection : Connection :=
  {| client := http; collection_id := "default"; user_id := "u-1" |}.

(** A response with the given status code, raw body and decoded body. *)
Definition reply (code : Z) (raw : string) (body : option pyval) : Response :=
  {| status_code := code; reason := ""; resp_url := "https://api.example/video";
     text := raw; json_body := body |}.

(** A world that will give the answers [answers], with the clock
    readings [ticks]. *)
Definition world (answers : list (outcome Response)) (ticks : list Z) : World :=
  {| wire := answers; clock := ticks; requested := []; files := ∅ |}.

(** [{status: processing, data: {output_url: "https://poll"}}]. *)
Definition job : gmap string pyval :=
  <["status" := PyStr "processing"]>
  (<["data" := PyDict {["output_url" := PyStr "https://poll"]}]> ∅).

(** [{status: processing, request_type: async}]. *)
Definition async_ack : gmap string pyval :=
  <["status" := PyStr "processing"]> (<["request_type" := PyStr "async"]> ∅).

(** [{status: processing, request_type: batch, success: true, data: 7}]. *)
Definition odd_type : gmap string pyval :=
  <["status" := PyStr "processing"]>
  (<["request_type" := PyStr "batch"]>
  (<["success" := PyBool true]> (<["data" := PyInt 7]> ∅))).

(** [{status: "in progress"}]. *)
Definition still_running : gmap string pyval := {["status" := PyStr "in progress"]}.

(** [{status: processing}]. *)
Definition still_processing : gmap string pyval := {["status" := PyStr "processing"]}.

(** [{status: done, success: true, data: 7}]. *)
Definition done : gmap string pyval :=
  <["status" := PyStr "done"]>
  (<["success" := PyBool true]> (<["data" := PyInt 7]> ∅)).

(** [{status: done, success: true}]. *)
Definition done_no_data : gmap string pyval :=
  <["status" := PyStr "done"]> (<["success" := PyBool true]> ∅).

(** [{status: done, success: false, message: "no such video"}]. *)
Definition failed : gmap string pyval :=
  <["status" := PyStr "done"]>
  (<["success" := PyBool false]> (<["message" := PyStr "no such video"]> ∅)).

(** [{status: done, success: true, data: 1,
      response: {success: true, data: 2}}]. *)
Definition wrapped_done : gmap string pyval :=
  <["status" := PyStr "done"]>
  (<["success" := PyBool true]>
  (<["data" := PyInt 1]>
  (<["response" := PyDict (<["success" := PyBool true]> (<["data" := PyInt 2]> ∅))]> ∅))).

(** [{status: done, success: false, message: "no such video",
      response: {success: true, data: 2}}]. *)
Definition wrapped_failed : gmap string pyval :=
  <["status" := PyStr "done"]>
  (<["success" := PyBool false]>
  (<["message" := PyStr "no such video"]>
  (<["response" := PyDict (<["success" := PyBool true]> (<["data" := PyInt 2]> ∅))]> ∅))).

(** [{message: "bad token"}]. *)
Definition complaint : gmap string pyval := {["message" := PyStr "bad token"]}.

End Sample.

(** ** More vocabulary *)

(** The exception one try of [_get_output] raises on the answer [a], if the
    try fails: the call's own exception, [ValueError] for a body that is
    not JSON, [AttributeError] for a JSON body that is no object, [stuck]
    for a pending status. *)
Definition try_error `{Constants} (a : outcome Response) : option exn :=
  match a with
  | Raises e => Some e
  | Returns r =>
      match json_body r with
      | None => Some ValueError
      | Some (PyDict entries) =>
          if pending_body (PyDict entries) then Some stuck else None
      | Some _ => Some AttributeError
      end
  end.

(** The response [r] is no HTTP error and its body is an envelope that
    the client answers with [v]: a JSON object with a truthy [success], a
    status other than [processing], and [data] equal to [v] ([None] when
    absent). *)
Definition delivers `{Constants} (r : Response) (v : pyval) : Prop :=
  http_error_status r = false
  /\ exists d s,
       json_body r = Some (PyDict d)
       /\ d !! "status" <> Some (PyStr Status_processing)
       /\ d !! "success" = Some s
       /\ truthy s = true
       /\ default PyNone (d !! "data") = v.

(** A computation that leaves the world as it is. *)
Definition keeps_world {A} (m : M A) : Prop :=
  forall w o w', m w = Some (o, w') -> w' = w.

(** A computation whose only HTTP calls are plain GETs to one URL, and
    that leaves the files as they are. *)
Definition only_polls {A} (m : M A) : Prop :=
  forall w o w',
    m w = Some (o, w') ->
    exists U n, requested w' = requested w ++ repeat (plain_get U) n
                /\ files w' = files w.

(** [c in s] for a character. *)
Fixpoint has_char (c : ascii) (s : string) : bool :=
  match s with
  | EmptyString => false
  | String c' rest => bool_decide (c' = c) || has_char c rest
  end.

(** The calls [upload] makes, as the source writes them. *)

(** [_connection.get(path=".../upload_url", params={"name": name})]. *)
Definition upload_url_request `{Constants} (conn : Connection) (name : string) : Request :=
  Client.request_of (client conn) GET
    (ApiPath_collection +:+ "/" +:+ collection_id conn +:+ "/" +:+ ApiPath_upload_url)
    None None {["params" := PyDict {["name" := PyStr name]}]}.

(** [requests.post(upload_url, files={"file": (name, file)})]. *)
Definition file_post_request (upload_url : pyval) (name content : string) : Request :=
  {| rq_verb := POST; rq_url := upload_url; rq_headers := None; rq_timeout := None;
     rq_kwargs := {["files" := PyDict {["file" := PyList [PyStr name; PyStr content]]}]} |}.

(** [_connection.post(path=".../upload", data={...})]. *)
Definition register_request `{Constants} (conn : Connection) (url name : pyval)
    (description callback_url media_type : option string) : Request :=
  Client.request_of (client conn) POST
    (ApiPath_collection +:+ "/" +:+ collection_id conn +:+ "/" +:+ ApiPath_upload)
    None None
    (<["json" := PyDict (<["url" := url]>
                        (<["name" := name]>
                        (<["description" := of_opt description]>
                        (<["callback_url" := of_opt callback_url]>
                        (<["media_type" := of_opt media_type]> ∅)))))]> ∅).

(** [requests.post(f"{STREAMING_API}/upload", json={...})]. *)
Definition streaming_request `{Environ} (conn : Connection) (url : pyval)
    (media_id : string) : Request :=
  {| rq_verb := POST; rq_url := PyStr (STREAMING_API +:+ "/upload");
     rq_headers := None; rq_timeout := None;
     rq_kwargs :=
       {["json" := PyDict (<["url" := url]>
                          (<["media_id" := PyStr media_id]>
                          (<["user_id" := PyStr (user_id conn)]>
                          (<["segment_duration" := SEGMENT_DURATION]>
                          (<["segment_type" := PyStr SEGMENT_TYPE]> ∅)))))]} |}.

(** The [HTTPError] that [raise_for_status] raises on [r]. *)
Definition http_error (r : Response) : exn :=
  Requests {| cls := HTTPError; description := http_error_msg r; response := Some r |}.

(** ** [HttpClient.__init__] *)

(** [requests.utils.default_headers()], the headers a new
    [requests.Session] starts with; the development is parametric in
    them. *)
Class RequestsDefaults := { default_headers : gmap string string }.

(** [c.lower()] on an ASCII character. *)
Definition ascii_lower (c : ascii) : ascii :=
  let n := N_of_ascii c in
  if ((65 <=? n) && (n <=? 90))%N then ascii_of_N (n + 32) else c.

(** [s.lower()] on an ASCII string. *)
Fixpoint str_lower (s : string) : string :=
  match s with
  | EmptyString => EmptyString
  | String c rest => String (ascii_lower c) (str_lower rest)
  end.

(** [headers[key] = value] on the session's [CaseInsensitiveDict]: the
    entry replaces any entry whose key differs from [key] by case only. *)
Definition ci_set (key value : string) (headers : gmap string string)
    : gmap string string :=
  <[key := value]> (filter (fun kv => str_lower kv.1 <> str_lower key) headers).

(** [HttpClient.__init__(api_key, base_url, max_retries)].  The retry
    policy built from [max_retries] is mounted on the session's transport
    adapters: it acts inside single HTTP calls, whose outcomes the world
    scripts. *)
Definition __init__ `{RequestsDefaults} (api_key base_url_arg : string)
    (max_retries : option Z) : HttpClient :=
  {| base_url := base_url_arg;
     session_headers :=
       ci_set "Content-Type" "application/json"
         (ci_set "x-access-token" api_key default_headers) |}.

(** ** [videodb/video.py] *)

(** The constants of [videodb._constants] that [video.py] reads. *)
Class VideoConstants := {
  ApiPath_video : string;
  ApiPath_stream : string;
  ApiPath_thumbnail : string;
  ApiPath_transcription : string;
  ApiPath_index : string;
  ApiPath_generate_scenes : string;
  ApiPath_delete : string;
  IndexType_semantic : string;
  IndexType_scene : string
}.

(** [class Frame]: the attributes are [kwargs.get(...)], [None] when the
    keyword is missing. *)
Module Frame.

Record t := {
  image_url : pyval;
  video_id : pyval;
  start : pyval;
  end_ : pyval;
  description : pyval;
  frame_time : pyval;
  frame_no : pyval
}.

Definition __init__ (kwargs : gmap string pyval) : t :=
  {| image_url := default PyNone (kwargs !! "image_url");
     video_id := default PyNone (kwargs !! "video_id");
     start := default PyNone (kwargs !! "start");
     end_ := default PyNone (kwargs !! "end");
     description := default PyNone (kwargs !! "description");
     frame_time := default PyNone (kwargs !! "frame_time");
     frame_no := default PyNone (kwargs !! "frame_no") |}.

End Frame.

(** A [Frame] built from the keywords of each element of a list (the
    call unpacks the element with [**]).  An element that is no mapping is
    a [TypeError], and so is a mapping with the key [self]: that keyword
    meets the [self] parameter of [Frame.__init__] a second time. *)
Fixpoint frames_of_items (items : list pyval) : M (list Frame.t) :=
  match items with
  | [] => ret []
  | PyDict kwargs :: rest =>
      match kwargs !! "self" with
      | Some _ => raise TypeError
      | None =>
          let* frames := frames_of_items rest in
          ret (Frame.__init__ kwargs :: frames)
      end
  | _ :: _ => raise TypeError
  end.

(** The loop [for frame in response] that appends a [Frame] for each
    element.  A list gives its elements; a dict gives its keys and a
    string its characters, none of which is a mapping; the other values
    cannot be iterated. *)
Definition frames_of (response : pyval) : M (list Frame.t) :=
  match response with
  | PyList items => frames_of_items items
  | PyDict entries => if bool_decide (size entries = 0%nat) then ret [] else raise TypeError
  | PyStr s => if bool_decide (s = "") then ret [] else raise TypeError
  | _ => raise TypeError
  end.

(** [class Video].  The attributes that [__init__] reads from its
    keywords are held as values. *)
Module Video.

Record t := {
  _connection : Connection;
  id : string;
  collection_id : string;
  stream_url : pyval;
  player_url : pyval;
  name : pyval;
  description : pyval;
  thumbnail_url : pyval;
  length : pyval;
  transcript : pyval;
  transcript_text : pyval;
  scenes : pyval
}.

(** [self.thumbnail_url = v]. *)
Definition set_thumbnail_url (v : pyval) (self : t) : t :=
  {| _connection := _connection self; id := id self;
     collection_id := collection_id self; stream_url := stream_url self;
     player_url := player_url self; name := name self;
     description := description self; thumbnail_url := v;
     length := length self; transcript := transcript self;
     transcript_text := transcript_text self; scenes := scenes self |}.

(** [self.transcript = words; self.transcript_text = txt]. *)
Definition set_transcript (words txt : pyval) (self : t) : t :=
  {| _connection := _connection self; id := id self;
     collection_id := collection_id self; stream_url := stream_url self;
     player_url := player_url self; name := name self;
     description := description self; thumbnail_url := thumbnail_url self;
     length := length self; transcript := words;
     transcript_text := txt; scenes := scenes self |}.

(** [self.scenes = v]. *)
Definition set_scenes (v : pyval) (self : t) : t :=
  {| _connection := _connection self; id := id self;
     collection_id := collection_id self; stream_url := stream_url self;
     player_url := player_url self; name := name self;
     description := description self; thumbnail_url := thumbnail_url self;
     length := length self; transcript := transcript self;
     transcript_text := transcript_text self; scenes := v |}.

Section Methods.
Context `{Builtins} `{Constants} `{VideoConstants}.

(** [f"{ApiPath.video}/{self.id}/{leaf}"]. *)
Definition path_of (self : t) (leaf : string) : string :=
  ApiPath_video +:+ "/" +:+ id self +:+ "/" +:+ leaf.

Definition generate_stream (self : t) (timeline : pyval) : M pyval :=
  if negb (truthy timeline) && truthy (stream_url self) then ret (stream_url self)
  else
    let* stream_data :=
      Client.post (client (_connection self)) (path_of self ApiPath_stream)
        (PyDict (<["timeline" := timeline]> (<["length" := length self]> ∅)))
        None None ∅ in
    py_get stream_data "stream_url" PyNone.

Definition generate_thumbnail (self : t) : M (pyval * t) :=
  if truthy (thumbnail_url self) then ret (thumbnail_url self, self)
  else
    let* thumbnail_data :=
      Client.get (client (_connection self)) (path_of self ApiPath_thumbnail)
        None None ∅ in
    let* url := py_get thumbnail_data "thumbnail_url" PyNone in
    ret (url, set_thumbnail_url url self).

Definition _fetch_transcript (self : t) (language_code force : pyval) : M t :=
  if truthy (transcript self) && negb (truthy force) then ret self
  else
    let* transcript_data :=
      Client.get (client (_connection self)) (path_of self ApiPath_transcription)
        None None
        (<["params" := PyDict (<["force" := PyStr (if truthy force then "true"
                                                   else "false")]>
                              (<["language_code" := language_code]> ∅))]>
        (<["show_progress" := PyBool true]> ∅)) in
    let* words := py_get transcript_data "word_timestamps" (PyList []) in
    let* txt := py_get transcript_data "text" (PyStr "") in
    ret (set_transcript words txt self).

(** [get_transcript(force)]: [self._fetch_transcript(force)] binds
    [force] to the first parameter, [language_code], and leaves the
    parameter [force] at its default [False]. *)
Definition get_transcript (self : t) (force : pyval) : M (pyval * t) :=
  let* self := _fetch_transcript self force (PyBool false) in
  ret (transcript self, self).

Definition get_transcript_text (self : t) (force : pyval) : M (pyval * t) :=
  let* self := _fetch_transcript self force (PyBool false) in
  ret (transcript_text self, self).

Definition index_spoken_words (self : t) (language_code : pyval) : M (pyval * t) :=
  let* self := _fetch_transcript self language_code (PyBool false) in
  let* _ :=
    Client.post (client (_connection self)) (path_of self ApiPath_index)
      (PyDict (<["index_type" := PyStr IndexType_semantic]> ∅)) None None ∅ in
  ret (PyNone, self).

Definition extract_frames (self : t) (extraction_type : string)
    (extraction_config : pyval) (custom_index_id : option string) (force : bool)
    (callback_url : option string) : M (list Frame.t) :=
  let* response :=
    Client.post (client (_connection self)) (path_of self ApiPath_generate_scenes)
      (PyDict (<["custom_index_id" := of_opt custom_index_id]>
              (<["extraction_type" := PyStr extraction_type]>
              (<["extraction_config" := extraction_config]>
              (<["force" := PyBool force]> ∅)))))
      None None ∅ in
  frames_of response.

(** The keywords of the GET that [get_scenes] makes. *)
Definition scene_params (scene_model : string) (custom_index_id : option string)
    : gmap string pyval :=
  <["params" := PyDict (<["index_type" := PyStr IndexType_scene]>
                       (<["model_name" := PyStr scene_model]>
                       (<["custom_index_id" := of_opt custom_index_id]> ∅)))]> ∅.

Definition get_scenes (self : t) (scene_model : string)
    (custom_index_id : option string) : M (pyval * t) :=
  if truthy (scenes self) then ret (scenes self, self)
  else
    let* scene_data :=
      Client.get (client (_connection self)) (path_of self ApiPath_index)
        None None (scene_params scene_model custom_index_id) in
    ret (if truthy scene_data then scene_data else PyNone, set_scenes scene_data self).

Definition delete_scene_index (self : t) (scene_model : string) : M (pyval * t) :=
  let* _ :=
    Client.post (client (_connection self))
      (path_of self ApiPath_index +:+ "/" +:+ ApiPath_delete)
      (PyDict (<["index_type" := PyStr IndexType_scene]>
              (<["model_name" := PyStr scene_model]> ∅)))
      None None ∅ in
  ret (PyNone, set_scenes PyNone self).

End Methods.
End Video.

(** ** More sample data *)

Module Cases.

Definition video_constants : VideoConstants :=
  {| ApiPath_video := "video"; ApiPath_stream := "stream";
     ApiPath_thumbnail := "thumbnail"; ApiPath_transcription := "transcription";
     ApiPath_index := "index"; ApiPath_generate_scenes := "scenes";
     ApiPath_delete := "delete"; IndexType_semantic := "semantic";
     IndexType_scene := "scene" |}.

Definition requests_defaults : RequestsDefaults :=
  {| default_headers := <["User-Agent" := "python-requests"]> (<["Accept" := "*/*"]> ∅) |}.

(** A 200 response with the envelope [{success: true, data: v}]. *)
Definition ok (v : pyval) : Response :=
  Sample.reply 200 "" (Some (PyDict (<["success" := PyBool true]> (<["data" := v]> ∅)))).

(** A 200 response whose body is not JSON. *)
Definition garbled : Response := Sample.reply 200 "<html>" None.

(** A 503 response. *)
Definition unavailable : Response := Sample.reply 503 "" None.

Definition timed_out : RequestException :=
  {| cls := ConnectTimeout; description := "connect timeout"; response := None |}.

Definition unreachable : RequestException :=
  {| cls := ConnectionError; description := "connection refused"; response := None |}.

(** [{status: processing}]. *)
Definition job_without_data : gmap string pyval := {["status" := PyStr "processing"]}.

(** A video with a cached stream URL and transcript, and no cached
    thumbnail or scenes. *)
Definition video : Video.t :=
  {| Video._connection := Sample.connection; Video.id := "m-1";
     Video.collection_id := "default";
     Video.stream_url := PyStr "https://stream/cached";
     Video.player_url := PyNone; Video.name := PyStr "clip";
     Video.description := PyNone; Video.thumbnail_url := PyNone;
     Video.length := PyInt 60;
     Video.transcript := PyList [PyDict {["word" := PyStr "hello"]}];
     Video.transcript_text := PyStr "hello"; Video.scenes := PyNone |}.

End Cases.

(** * Properties *)

(** ** Reading an envelope *)

Section Envelope.
Context `{Builtins} `{Constants}.

Lemma py_eq_str_true v s : py_eq_str v s = true <-> v = PyStr s.
Proof.
  destruct v; simpl; try (split; [discriminate | congruence]).
  rewrite bool_decide_eq_true. split; congruence.
Qed.

Lemma py_eq_str_false v s : py_eq_str v s = false <-> v <> PyStr s.
Proof.
  rewrite <- py_eq_str_true. destruct (py_eq_str v s); split; congruence.
Qed.

Lemma status_is (d : gmap string pyval) s :
  d !! "status" = Some (PyStr s) ->
  py_eq_str (default PyNone (d !! "status")) s = true.
Proof. intros ->. now apply py_eq_str_true. Qed.

Lemma status_is_not (d : gmap string pyval) s :
  d !! "status" <> Some (PyStr s) ->
  py_eq_str (default PyNone (d !! "status")) s = false.
Proof.
  intros Hne. apply py_eq_str_false.
  destruct (d !! "status") as [v|]; simpl; congruence.
Qed.

Lemma processing_with_dict d kind w :
  Client.processing_with (PyDict d) kind w
  = Some (Returns (py_eq_str (default PyNone (d !! "status")) Status_processing
                   && py_eq_str (default (PyStr "sync") (d !! "request_type")) kind), w).
Proof.
  unfold Client.processing_with, bind, py_get, ret.
  destruct (py_eq_str _ Status_processing); reflexivity.
Qed.

Lemma data_or_invalid_dict d r w :
  Client.data_or_invalid (PyDict d) r w
  = Some (if truthy (default PyNone (d !! "success"))
          then Returns (default PyNone (d !! "data"))
          else Raises (InvalidRequestError
                         ("Invalid request: " +:+ py_str (default PyNone (d !! "message")))
                         (Some r)), w).
Proof.
  unfold Client.data_or_invalid, bind, py_get, ret, raise.
  destruct (truthy _); reflexivity.
Qed.

(** A call answered by a response that is no HTTP error goes on with
    [_parse_response], under the [except RequestException] clause. *)
Lemma make_request_answered self method path b h kw w r later :
  wire w = Returns r :: later ->
  http_error_status r = false ->
  Client._make_request self method path b h kw w
  = try_except (Client._parse_response r)
      (fun e => match e with
                | Requests q => Some (Client._handle_request_error q)
                | _ => None
                end)
      (answered [Client.request_of self method path b h kw] later w).
Proof.
  intros Hw Hs.
  unfold Client._make_request, try_except, bind, http_call, raise_for_status.
  rewrite Hw, Hs. reflexivity.
Qed.

(** Neither of the two [processing] branches is taken: the envelope is
    read by the final success check. *)
Lemma parse_response_falls_through r d w :
  json_body r = Some (PyDict d) ->
  py_eq_str (default PyNone (d !! "status")) Status_processing
  && py_eq_str (default (PyStr "sync") (d !! "request_type")) "async" = false ->
  py_eq_str (default PyNone (d !! "status")) Status_processing
  && py_eq_str (default (PyStr "sync") (d !! "request_type")) "sync" = false ->
  Client._parse_response r w = Client.data_or_invalid (PyDict d) r w.
Proof.
  intros Hb Ha Hs.
  unfold Client._parse_response, try_except, bind, Response_json.
  rewrite Hb. unfold ret at 1.
  rewrite processing_with_dict, Ha. simpl.
  rewrite processing_with_dict, Hs. simpl.
  rewrite data_or_invalid_dict. destruct (truthy _); reflexivity.
Qed.

(** The first branch: a job the caller did not block for. *)
Lemma parse_response_async r d w :
  json_body r = Some (PyDict d) ->
  d !! "status" = Some (PyStr Status_processing) ->
  d !! "request_type" = Some (PyStr "async") ->
  Client._parse_response r w = Some (Returns PyNone, w).
Proof.
  intros Hb Hst Hrt.
  unfold Client._parse_response, try_except, bind, Response_json.
  rewrite Hb. unfold ret at 1.
  rewrite processing_with_dict, (status_is _ _ Hst), Hrt.
  reflexivity.
Qed.

(** C5. An envelope with status [processing] and request type [async]
    makes the request call return [None] at once: the only HTTP call is the
    request itself, nothing further is taken from the wire, and the clock
    is not read. *)
Theorem async_processing_returns_None self method path b h kw
    (w : World) (r : Response) later (d : gmap string pyval) :
  wire w = Returns r :: later ->
  http_error_status r = false ->
  json_body r = Some (PyDict d) ->
  d !! "status" = Some (PyStr Status_processing) ->
  d !! "request_type" = Some (PyStr "async") ->
  Client._make_request self method path b h kw w
  = Some (Returns PyNone,
          answered [Client.request_of self method path b h kw] later w).
Proof.
  intros Hw Hs Hb Hst Hrt.
  rewrite (make_request_answered _ _ _ _ _ _ _ _ _ Hw Hs).
  unfold try_except.
  now rewrite (parse_response_async _ d).
Qed.

(** C7. A directly successful envelope (success true, status other than
    [processing]) makes the request call return the envelope's [data] as
    it is, with no polling: the only HTTP call is the request itself. *)
Theorem direct_success_returns_data self method path b h kw
    (w : World) (r : Response) later (d : gmap string pyval) (s v : pyval) :
  wire w = Returns r :: later ->
  http_error_status r = false ->
  json_body r = Some (PyDict d) ->
  d !! "status" <> Some (PyStr Status_processing) ->
  d !! "success" = Some s ->
  truthy s = true ->
  d !! "data" = Some v ->
  Client._make_request self method path b h kw w
  = Some (Returns v,
          answered [Client.request_of self method path b h kw] later w).
Proof.
  intros Hw Hs Hb Hst Hsu Ht Hd.
  rewrite (make_request_answered _ _ _ _ _ _ _ _ _ Hw Hs).
  unfold try_except.
  rewrite (parse_response_falls_through _ d) by
    (try rewrite (status_is_not _ _ Hst); easy).
  rewrite data_or_invalid_dict, Hsu, Hd. simpl. now rewrite Ht.
Qed.

(** C9. A successful envelope without [data] (success true, status other
    than [processing]) makes the request call return [None], and so does
    the acknowledgment of an async job: from the same world the two calls
    give the same value and leave the same world behind. *)
Theorem payloadless_success_like_async_ack self method path b h kw
    later ticks log fs (r1 r2 : Response) (d1 d2 : gmap string pyval) (s : pyval) :
  http_error_status r1 = false ->
  json_body r1 = Some (PyDict d1) ->
  d1 !! "status" <> Some (PyStr Status_processing) ->
  d1 !! "success" = Some s ->
  truthy s = true ->
  d1 !! "data" = None ->
  http_error_status r2 = false ->
  json_body r2 = Some (PyDict d2) ->
  d2 !! "status" = Some (PyStr Status_processing) ->
  d2 !! "request_type" = Some (PyStr "async") ->
  let after := {| wire := later; clock := ticks;
                  requested := log ++ [Client.request_of self method path b h kw];
                  files := fs |} in
  Client._make_request self method path b h kw
    {| wire := Returns r1 :: later; clock := ticks; requested := log; files := fs |}
  = Some (Returns PyNone, after)
  /\ Client._make_request self method path b h kw
       {| wire := Returns r2 :: later; clock := ticks; requested := log; files := fs |}
     = Some (Returns PyNone, after).
Proof.
  intros Hs1 Hb1 Hst1 Hsu Ht Hd Hs2 Hb2 Hst2 Hrt after. split.
  - rewrite (make_request_answered _ _ _ _ _ _ _ r1 later) by easy.
    unfold try_except.
    rewrite (parse_response_falls_through _ d1) by
      (try rewrite (status_is_not _ _ Hst1); easy).
    rewrite data_or_invalid_dict, Hsu, Hd. simpl. now rewrite Ht.
  - rewrite (make_request_answered _ _ _ _ _ _ _ r2 later) by easy.
    unfold try_except.
    now rewrite (parse_response_async _ d2).
Qed.

(** C10. An envelope with status [processing] whose [request_type] is
    present and is neither "sync" nor "async" is read by the final success
    check: the call returns [data] when [success] is truthy and raises
    [InvalidRequestError] with the envelope's [message] otherwise; it
    neither returns [None] for the job nor polls. *)
Theorem unknown_request_type_falls_through self method path b h kw
    (w : World) (r : Response) later (d : gmap string pyval) (rt : pyval) :
  wire w = Returns r :: later ->
  http_error_status r = false ->
  json_body r = Some (PyDict d) ->
  d !! "status" = Some (PyStr Status_processing) ->
  d !! "request_type" = Some rt ->
  rt <> PyStr "sync" ->
  rt <> PyStr "async" ->
  Client._make_request self method path b h kw w
  = Some (if truthy (default PyNone (d !! "success"))
          then Returns (default PyNone (d !! "data"))
          else Raises (InvalidRequestError
                         ("Invalid request: " +:+ py_str (default PyNone (d !! "message")))
                         (Some r)),
          answered [Client.request_of self method path b h kw] later w).
Proof.
  intros Hw Hs Hb Hst Hrt Hsync Hasync.
  rewrite (make_request_answered _ _ _ _ _ _ _ _ _ Hw Hs).
  unfold try_except.
  rewrite (parse_response_falls_through _ d); trivial.
  - rewrite data_or_invalid_dict. destruct (truthy _); reflexivity.
  - rewrite Hrt. simpl. apply andb_false_iff. right. now apply py_eq_str_false.
  - rewrite Hrt. simpl. apply andb_false_iff. right. now apply py_eq_str_false.
Qed.

End Envelope.

Lemma async_processing_returns_None_witness :
  @Client._make_request Sample.builtins Sample.constants Sample.http POST "video"
    None None ∅
    (Sample.world [Returns (Sample.reply 200 "" (Some (PyDict Sample.async_ack)))] [])
  = Some (Returns PyNone,
          answered
            [@Client.request_of Sample.constants Sample.http POST "video" None None ∅]
            []
            (Sample.world [Returns (Sample.reply 200 "" (Some (PyDict Sample.async_ack)))] [])).
Proof.
  eapply (@async_processing_returns_None Sample.builtins Sample.constants
           Sample.http POST "video" None None ∅ _ _ [] Sample.async_ack);
    reflexivity.
Defined.

Lemma direct_success_returns_data_witness :
  @Client._make_request Sample.builtins Sample.constants Sample.http GET "video"
    None None ∅
    (Sample.world [Returns (Sample.reply 200 "" (Some (PyDict Sample.done)))] [])
  = Some (Returns (PyInt 7),
          answered
            [@Client.request_of Sample.constants Sample.http GET "video" None None ∅]
            []
            (Sample.world [Returns (Sample.reply 200 "" (Some (PyDict Sample.done)))] [])).
Proof.
  eapply (@direct_success_returns_data Sample.builtins Sample.constants
           Sample.http GET "video" None None ∅ _ _ [] Sample.done (PyBool true));
    try reflexivity.
  vm_compute. discriminate.
Defined.

Lemma payloadless_success_like_async_ack_witness :
  @Client._make_request Sample.builtins Sample.constants Sample.http GET "video"
    None None ∅
    (Sample.world [Returns (Sample.reply 200 "" (Some (PyDict Sample.done_no_data)))] [])
  = @Client._make_request Sample.builtins Sample.constants Sample.http GET "video"
      None None ∅
      (Sample.world [Returns (Sample.reply 200 "" (Some (PyDict Sample.async_ack)))] []).
Proof.
  assert (Sample.done_no_data !! "status" <> Some (PyStr "processing")) as Hst
    by (vm_compute; discriminate).
  destruct (@payloadless_success_like_async_ack Sample.builtins Sample.constants
              Sample.http GET "video" None None ∅ [] [] [] ∅
              (Sample.reply 200 "" (Some (PyDict Sample.done_no_data)))
              (Sample.reply 200 "" (Some (PyDict Sample.async_ack)))
              Sample.done_no_data Sample.async_ack (PyBool true)
              eq_refl eq_refl Hst eq_refl eq_refl eq_refl
              eq_refl eq_refl eq_refl eq_refl)
    as [E1 E2].
  unfold Sample.world. rewrite E1, E2. reflexivity.
Defined.

Lemma unknown_request_type_falls_through_witness :
  @Client._make_request Sample.builtins Sample.constants Sample.http GET "video"
    None None ∅
    (Sample.world [Returns (Sample.reply 200 "" (Some (PyDict Sample.odd_type)))] [])
  = Some (Returns (PyInt 7),
          answered
            [@Client.request_of Sample.constants Sample.http GET "video" None None ∅]
            []
            (Sample.world [Returns (Sample.reply 200 "" (Some (PyDict Sample.odd_type)))] [])).
Proof.
  eapply (@unknown_request_type_falls_through Sample.builtins Sample.constants
           Sample.http GET "video" None None ∅ _ _ [] Sample.odd_type (PyStr "batch"));
    try reflexivity; discriminate.
Defined.

(** ** The polling protocol *)

Section Polling.
Context `{Builtins} `{Constants}.

(** One try on a pending answer raises [stuck], having made one plain GET. *)
Lemma get_output_try_pending U w a later :
  wire w = a :: later ->
  pending_answer a = true ->
  Client._get_output_try U w = Some (Raises stuck, answered [plain_get U] later w).
Proof.
  intros Hw Hp.
  destruct a as [r|e]; [|discriminate]. simpl in Hp.
  destruct (json_body r) as [v|] eqn:Hb; [|discriminate].
  destruct v as [| | | | |d]; try discriminate. simpl in Hp.
  unfold Client._get_output_try, bind, http_call, Response_json.
  rewrite Hw, Hb. simpl.
  destruct (py_eq_str _ Status_in_progress); simpl in *; [reflexivity|].
  now rewrite Hp.
Qed.

(** One try on a terminal answer returns the effective envelope. *)
Lemma get_output_try_terminal U w r d later :
  wire w = Returns r :: later ->
  json_body r = Some (PyDict d) ->
  pending_body (PyDict d) = false ->
  Client._get_output_try U w
  = Some (Returns (effective_envelope d), answered [plain_get U] later w).
Proof.
  intros Hw Hb Hp. simpl in Hp. apply orb_false_iff in Hp as [Hp1 Hp2].
  unfold Client._get_output_try, bind, http_call, Response_json.
  rewrite Hw, Hb. simpl. rewrite Hp1. simpl. rewrite Hp2. reflexivity.
Qed.

(** The loop walks through pending answers as long as the clock readings
    stay under the ceiling: one plain GET for each. *)
Lemma retry_loop_pending U polls : forall ticks fuel w later later_clock,
  length ticks = length polls ->
  Forall (fun a => pending_answer a = true) polls ->
  Forall (fun t => t < 500 * 1000000) ticks ->
  wire w = polls ++ later ->
  clock w = ticks ++ later_clock ->
  retry_loop 500 (Client._get_output_try U) (length polls + fuel) w
  = retry_loop 500 (Client._get_output_try U) fuel
      {| wire := later; clock := later_clock;
         requested := requested w ++ repeat (plain_get U) (length polls);
         files := files w |}.
Proof.
  induction polls as [|a polls IH]; intros ticks fuel w later later_clock Hlen Hp Ht Hw Hc.
  - destruct ticks; [|discriminate]. simpl in *.
    rewrite app_nil_r. destruct w; simpl in *; subst. reflexivity.
  - destruct ticks as [|t ticks]; [discriminate|].
    inversion Hp as [|? ? Hpa Hps]; subst. inversion Ht as [|? ? Hta Hts]; subst.
    simpl in Hlen. injection Hlen as Hlen.
    cbn [length Nat.add retry_loop].
    unfold bind at 1, read_elapsed at 1. rewrite Hc. cbn [app].
    unfold try_except at 1.
    erewrite get_output_try_pending; [| exact Hw | exact Hpa].
    destruct (500 * 1000000 <=? t) eqn:Hle; [apply Z.leb_le in Hle; lia|].
    rewrite (IH ticks fuel _ later later_clock); trivial.
    simpl. unfold answered. simpl. rewrite <- app_assoc. reflexivity.
Qed.

(** [_get_output] when a terminal answer arrives in time. *)
Lemma get_output_terminal U polls ticks t w r d later later_clock :
  wire w = polls ++ Returns r :: later ->
  clock w = ticks ++ t :: later_clock ->
  length ticks = length polls ->
  Forall (fun a => pending_answer a = true) polls ->
  Forall (fun t => t < 500 * 1000000) ticks ->
  json_body r = Some (PyDict d) ->
  pending_body (PyDict d) = false ->
  Client._get_output U w
  = Some (Returns (effective_envelope d),
          {| wire := later; clock := later_clock;
             requested := requested w ++ repeat (plain_get U) (S (length polls));
             files := files w |}).
Proof.
  intros Hw Hc Hlen Hp Ht Hb Hd.
  unfold Client._get_output, on_exception.
  rewrite Hc, length_app, Hlen. rewrite <- Nat.add_succ_r.
  rewrite (retry_loop_pending U polls ticks _ w (Returns r :: later) (t :: later_clock));
    trivial.
  cbn [length retry_loop]. unfold bind, read_elapsed, try_except. cbn [clock].
  erewrite get_output_try_terminal; [| reflexivity | exact Hb | exact Hd ].
  unfold answered. cbn [wire clock requested files].
  rewrite <- app_assoc, <- repeat_cons. reflexivity.
Qed.

(** [_get_output] when a pending answer meets a clock reading at or past
    the ceiling: the exception of that try is raised again. *)
Lemma get_output_gives_up U polls ticks t w a later later_clock :
  wire w = polls ++ a :: later ->
  clock w = ticks ++ t :: later_clock ->
  length ticks = length polls ->
  Forall (fun a => pending_answer a = true) polls ->
  Forall (fun t => t < 500 * 1000000) ticks ->
  pending_answer a = true ->
  500 * 1000000 <= t ->
  Client._get_output U w
  = Some (Raises stuck,
          {| wire := later; clock := later_clock;
             requested := requested w ++ repeat (plain_get U) (S (length polls));
             files := files w |}).
Proof.
  intros Hw Hc Hlen Hp Ht Ha Hle.
  unfold Client._get_output, on_exception.
  rewrite Hc, length_app, Hlen. rewrite <- Nat.add_succ_r.
  rewrite (retry_loop_pending U polls ticks _ w (a :: later) (t :: later_clock));
    trivial.
  cbn [length retry_loop]. unfold bind, read_elapsed, try_except. cbn [clock].
  erewrite get_output_try_pending; [| reflexivity | exact Ha ].
  apply Z.leb_le in Hle. rewrite Hle.
  unfold raise, answered. cbn [wire clock requested files].
  rewrite <- app_assoc, <- repeat_cons. reflexivity.
Qed.

(** The second branch: the polled path, under [except ValueError]. *)
Lemma parse_response_sync r0 d0 data0 U w :
  json_body r0 = Some (PyDict d0) ->
  d0 !! "status" = Some (PyStr Status_processing) ->
  d0 !! "request_type" = None \/ d0 !! "request_type" = Some (PyStr "sync") ->
  d0 !! "data" = Some (PyDict data0) ->
  data0 !! "output_url" = Some U ->
  Client._parse_response r0 w
  = try_except
      (let* response_json := Client._get_output U in
       Client.data_or_invalid response_json r0)
      (fun e =>
         if isinstance_ValueError e
         then Some (raise (InvalidRequestError ("Invalid request: " +:+ text r0) (Some r0)))
         else None) w.
Proof.
  intros Hb Hst Hrt Hd Hu.
  unfold Client._parse_response, try_except, bind at 1, Response_json.
  rewrite Hb. unfold ret at 1.
  unfold bind at 1.
  rewrite processing_with_dict, (status_is _ _ Hst).
  assert (default (PyStr "sync") (d0 !! "request_type") = PyStr "sync") as ->
    by (destruct Hrt as [-> | ->]; reflexivity).
  cbn [py_eq_str andb]. rewrite bool_decide_eq_false_2 by discriminate.
  unfold bind at 1.
  rewrite processing_with_dict, (status_is _ _ Hst).
  assert (default (PyStr "sync") (d0 !! "request_type") = PyStr "sync") as ->
    by (destruct Hrt as [-> | ->]; reflexivity).
  cbn [py_eq_str andb]. rewrite bool_decide_eq_true_2 by reflexivity.
  unfold bind at 1, py_get at 1. rewrite Hd. cbn [default from_option id].
  unfold ret at 1.
  unfold bind at 1, py_get at 1. rewrite Hu. cbn [default from_option id].
  reflexivity.
Qed.

(** Without a [response] field the effective envelope is the terminal
    body itself. *)
Lemma effective_envelope_plain (d : gmap string pyval) :
  d !! "response" = None -> effective_envelope d = PyDict d.
Proof. intros Hr. unfold effective_envelope. now rewrite Hr. Qed.

Lemma not_pending (d : gmap string pyval) :
  d !! "status" <> Some (PyStr Status_in_progress) ->
  d !! "status" <> Some (PyStr Status_processing) ->
  pending_body (PyDict d) = false.
Proof.
  intros H1 H2. simpl. now rewrite (status_is_not _ _ H1), (status_is_not _ _ H2).
Qed.

(** C1 (amended). An envelope with status [processing] and request type
    [sync] (or none) carrying [data.output_url = U] makes the client issue
    plain GET requests to [U], one for each pending answer and one for the
    first answer whose status is neither [in_progress] nor [processing].
    The call then reads the effective envelope (the terminal body's
    [response] field when truthy, the terminal body otherwise) and returns
    its [data] when its [success] is truthy. *)
Theorem sync_processing_polls_until_terminal self method path b h kw
    (w : World) (r0 : Response) (d0 data0 : gmap string pyval) (U : string)
    (polls : list (outcome Response)) (ticks : list Z) (t : Z)
    (rT : Response) (dT e : gmap string pyval) (s : pyval) later later_clock :
  wire w = Returns r0 :: polls ++ Returns rT :: later ->
  clock w = ticks ++ t :: later_clock ->
  length ticks = length polls ->
  http_error_status r0 = false ->
  json_body r0 = Some (PyDict d0) ->
  d0 !! "status" = Some (PyStr Status_processing) ->
  d0 !! "request_type" = None \/ d0 !! "request_type" = Some (PyStr "sync") ->
  d0 !! "data" = Some (PyDict data0) ->
  data0 !! "output_url" = Some (PyStr U) ->
  Forall (fun a => pending_answer a = true) polls ->
  Forall (fun t => t < 500 * 1000000) ticks ->
  json_body rT = Some (PyDict dT) ->
  dT !! "status" <> Some (PyStr Status_in_progress) ->
  dT !! "status" <> Some (PyStr Status_processing) ->
  effective_envelope dT = PyDict e ->
  e !! "success" = Some s ->
  truthy s = true ->
  Client._make_request self method path b h kw w
  = Some (Returns (default PyNone (e !! "data")),
          {| wire := later; clock := later_clock;
             requested := requested w
                          ++ Client.request_of self method path b h kw
                             :: repeat (plain_get (PyStr U)) (S (length polls));
             files := files w |}).
Proof.
  intros Hw Hc Hlen Hs0 Hb0 Hst Hrt Hd Hu Hp Ht HbT Hn1 Hn2 He Hsu Htr.
  rewrite (make_request_answered _ _ _ _ _ _ _ _ _ Hw Hs0).
  unfold try_except at 1.
  rewrite (parse_response_sync _ d0 data0 (PyStr U)) by trivial.
  unfold try_except, bind.
  rewrite (get_output_terminal _ polls ticks t _ rT dT later later_clock);
    trivial; [| now apply not_pending].
  rewrite He, data_or_invalid_dict, Hsu. cbn [default from_option id].
  rewrite Htr. cbn [answered requested files].
  now rewrite <- app_assoc.
Qed.

(** C6 (amended). When the polling loop reaches a terminal answer and the
    [success] of the effective envelope (the terminal body's [response]
    field when truthy, the terminal body otherwise) is not truthy, the
    call raises [InvalidRequestError] whose message is "Invalid request: "
    followed by that envelope's [message]; the error carries the response
    of the original request. *)
Theorem polled_failure_raises_invalid_request self method path b h kw
    (w : World) (r0 : Response) (d0 data0 : gmap string pyval) (U : string)
    (polls : list (outcome Response)) (ticks : list Z) (t : Z)
    (rT : Response) (dT e : gmap string pyval) later later_clock :
  wire w = Returns r0 :: polls ++ Returns rT :: later ->
  clock w = ticks ++ t :: later_clock ->
  length ticks = length polls ->
  http_error_status r0 = false ->
  json_body r0 = Some (PyDict d0) ->
  d0 !! "status" = Some (PyStr Status_processing) ->
  d0 !! "request_type" = None \/ d0 !! "request_type" = Some (PyStr "sync") ->
  d0 !! "data" = Some (PyDict data0) ->
  data0 !! "output_url" = Some (PyStr U) ->
  Forall (fun a => pending_answer a = true) polls ->
  Forall (fun t => t < 500 * 1000000) ticks ->
  json_body rT = Some (PyDict dT) ->
  dT !! "status" <> Some (PyStr Status_in_progress) ->
  dT !! "status" <> Some (PyStr Status_processing) ->
  effective_envelope dT = PyDict e ->
  truthy (default PyNone (e !! "success")) = false ->
  Client._make_request self method path b h kw w
  = Some (Raises (InvalidRequestError
                    ("Invalid request: " +:+ py_str (default PyNone (e !! "message")))
                    (Some r0)),
          {| wire := later; clock := later_clock;
             requested := requested w
                          ++ Client.request_of self method path b h kw
                             :: repeat (plain_get (PyStr U)) (S (length polls));
             files := files w |}).
Proof.
  intros Hw Hc Hlen Hs0 Hb0 Hst Hrt Hd Hu Hp Ht HbT Hn1 Hn2 He Hsu.
  rewrite (make_request_answered _ _ _ _ _ _ _ _ _ Hw Hs0).
  unfold try_except at 1.
  rewrite (parse_response_sync _ d0 data0 (PyStr U)) by trivial.
  unfold try_except, bind.
  rewrite (get_output_terminal _ polls ticks t _ rT dT later later_clock);
    trivial; [| now apply not_pending].
  rewrite He, data_or_invalid_dict, Hsu.
  cbn [isinstance_ValueError answered requested files].
  now rewrite <- app_assoc.
Qed.

(** C3. What the code does where the claim asks for a typed timeout
    error: when every answer of the polling endpoint reports a pending job
    up to the try whose clock reading has reached the ceiling of 500
    seconds, the call does not return; it raises, to its caller, the
    exception of that last try, the builtin [Exception] with the message
    "Stuck on processing status", which is none of the library's typed
    errors. *)
Theorem polling_past_ceiling_raises_stuck self method path b h kw
    (w : World) (r0 : Response) (d0 data0 : gmap string pyval) (U : string)
    (polls : list (outcome Response)) (ticks : list Z) (t : Z)
    (a : outcome Response) later later_clock :
  wire w = Returns r0 :: polls ++ a :: later ->
  clock w = ticks ++ t :: later_clock ->
  length ticks = length polls ->
  http_error_status r0 = false ->
  json_body r0 = Some (PyDict d0) ->
  d0 !! "status" = Some (PyStr Status_processing) ->
  d0 !! "request_type" = None \/ d0 !! "request_type" = Some (PyStr "sync") ->
  d0 !! "data" = Some (PyDict data0) ->
  data0 !! "output_url" = Some (PyStr U) ->
  Forall (fun a => pending_answer a = true) polls ->
  Forall (fun t => t < 500 * 1000000) ticks ->
  pending_answer a = true ->
  500 * 1000000 <= t ->
  Client._make_request self method path b h kw w
  = Some (Raises (PyException "Stuck on processing status"),
          {| wire := later; clock := later_clock;
             requested := requested w
                          ++ Client.request_of self method path b h kw
                             :: repeat (plain_get (PyStr U)) (S (length polls));
             files := files w |})
  /\ typed_error (PyException "Stuck on processing status") = false.
Proof.
  intros Hw Hc Hlen Hs0 Hb0 Hst Hrt Hd Hu Hp Ht Ha Hle.
  split; [| reflexivity].
  rewrite (make_request_answered _ _ _ _ _ _ _ _ _ Hw Hs0).
  unfold try_except at 1.
  rewrite (parse_response_sync _ d0 data0 (PyStr U)) by trivial.
  unfold try_except, bind.
  rewrite (get_output_gives_up _ polls ticks t _ a later later_clock); trivial.
  cbn [stuck isinstance_ValueError answered requested files].
  now rewrite <- app_assoc.
Qed.

End Polling.

Lemma sync_processing_polls_until_terminal_witness :
  @Client._make_request Sample.builtins Sample.constants Sample.http GET "video"
    None None ∅
    (Sample.world
       [Returns (Sample.reply 200 "" (Some (PyDict Sample.job)));
        Returns (Sample.reply 200 "" (Some (PyDict Sample.still_running)));
        Returns (Sample.reply 200 "" (Some (PyDict Sample.done)))]
       [0; 1000000])
  = Some (Returns (PyInt 7),
          {| wire := []; clock := [];
             requested :=
               [@Client.request_of Sample.constants Sample.http GET "video" None None ∅;
                plain_get (PyStr "https://poll"); plain_get (PyStr "https://poll")];
             files := ∅ |}).
Proof.
  assert (Sample.done !! "status" <> Some (PyStr "in progress")) as Hn1
    by (vm_compute; discriminate).
  assert (Sample.done !! "status" <> Some (PyStr "processing")) as Hn2
    by (vm_compute; discriminate).
  apply (@sync_processing_polls_until_terminal Sample.builtins Sample.constants
           Sample.http GET "video" None None ∅
           (Sample.world
              [Returns (Sample.reply 200 "" (Some (PyDict Sample.job)));
               Returns (Sample.reply 200 "" (Some (PyDict Sample.still_running)));
               Returns (Sample.reply 200 "" (Some (PyDict Sample.done)))]
              [0; 1000000])
           (Sample.reply 200 "" (Some (PyDict Sample.job)))
           Sample.job {["output_url" := PyStr "https://poll"]} "https://poll"
           [Returns (Sample.reply 200 "" (Some (PyDict Sample.still_running)))]
           [0] 1000000
           (Sample.reply 200 "" (Some (PyDict Sample.done)))
           Sample.done Sample.done (PyBool true) [] []
           eq_refl eq_refl eq_refl eq_refl eq_refl eq_refl (or_introl eq_refl)
           eq_refl eq_refl
           ltac:(repeat constructor)
           ltac:(repeat constructor)
           eq_refl Hn1 Hn2 eq_refl eq_refl eq_refl).
Defined.

(** C1, as stated, fails: the terminal envelope has [success] true and
    [data] 1, and the call returns 2, the [data] of the envelope's
    [response] field. *)
Lemma sync_processing_terminal_data_counterexample :
  Sample.wrapped_done !! "status" = Some (PyStr "done")
  /\ Sample.wrapped_done !! "success" = Some (PyBool true)
  /\ Sample.wrapped_done !! "data" = Some (PyInt 1)
  /\ fst <$> @Client._make_request Sample.builtins Sample.constants Sample.http GET
               "video" None None ∅
               (Sample.world
                  [Returns (Sample.reply 200 "" (Some (PyDict Sample.job)));
                   Returns (Sample.reply 200 "" (Some (PyDict Sample.wrapped_done)))]
                  [0])
     = Some (Returns (PyInt 2)).
Proof. repeat split; vm_compute; reflexivity. Qed.

Lemma polled_failure_raises_invalid_request_witness :
  fst <$> @Client._make_request Sample.builtins Sample.constants Sample.http GET
            "video" None None ∅
            (Sample.world
               [Returns (Sample.reply 200 "" (Some (PyDict Sample.job)));
                Returns (Sample.reply 200 "" (Some (PyDict Sample.still_running)));
                Returns (Sample.reply 200 "" (Some (PyDict Sample.failed)))]
               [0; 1000000])
  = Some (Raises (InvalidRequestError "Invalid request: no such video"
                    (Some (Sample.reply 200 "" (Some (PyDict Sample.job)))))).
Proof.
  assert (Sample.failed !! "status" <> Some (PyStr "in progress")) as Hn1
    by (vm_compute; discriminate).
  assert (Sample.failed !! "status" <> Some (PyStr "processing")) as Hn2
    by (vm_compute; discriminate).
  rewrite (@polled_failure_raises_invalid_request Sample.builtins Sample.constants
           Sample.http GET "video" None None ∅
           (Sample.world
              [Returns (Sample.reply 200 "" (Some (PyDict Sample.job)));
               Returns (Sample.reply 200 "" (Some (PyDict Sample.still_running)));
               Returns (Sample.reply 200 "" (Some (PyDict Sample.failed)))]
              [0; 1000000])
           (Sample.reply 200 "" (Some (PyDict Sample.job)))
           Sample.job {["output_url" := PyStr "https://poll"]} "https://poll"
           [Returns (Sample.reply 200 "" (Some (PyDict Sample.still_running)))]
           [0] 1000000
           (Sample.reply 200 "" (Some (PyDict Sample.failed)))
           Sample.failed Sample.failed [] []
           eq_refl eq_refl eq_refl eq_refl eq_refl eq_refl (or_introl eq_refl)
           eq_refl eq_refl
           ltac:(repeat constructor)
           ltac:(repeat constructor)
           eq_refl Hn1 Hn2 eq_refl eq_refl).
  reflexivity.
Defined.

(** C6, as stated, fails: the terminal envelope has [success] false and a
    [message], and the call raises nothing: it returns 2, the [data] of
    the envelope's [response] field. *)
Lemma polled_failure_counterexample :
  Sample.wrapped_failed !! "status" = Some (PyStr "done")
  /\ Sample.wrapped_failed !! "success" = Some (PyBool false)
  /\ Sample.wrapped_failed !! "message" = Some (PyStr "no such video")
  /\ fst <$> @Client._make_request Sample.builtins Sample.constants Sample.http GET
               "video" None None ∅
               (Sample.world
                  [Returns (Sample.reply 200 "" (Some (PyDict Sample.job)));
                   Returns (Sample.reply 200 "" (Some (PyDict Sample.wrapped_failed)))]
                  [0])
     = Some (Returns (PyInt 2)).
Proof. repeat split; vm_compute; reflexivity. Qed.

Lemma polling_past_ceiling_raises_stuck_witness :
  fst <$> @Client._make_request Sample.builtins Sample.constants Sample.http GET
            "video" None None ∅
            (Sample.world
               [Returns (Sample.reply 200 "" (Some (PyDict Sample.job)));
                Returns (Sample.reply 200 "" (Some (PyDict Sample.still_processing)));
                Returns (Sample.reply 200 "" (Some (PyDict Sample.still_processing)))]
               [0; 500000000])
  = Some (Raises (PyException "Stuck on processing status")).
Proof.
  destruct (@polling_past_ceiling_raises_stuck Sample.builtins Sample.constants
           Sample.http GET "video" None None ∅
           (Sample.world
              [Returns (Sample.reply 200 "" (Some (PyDict Sample.job)));
               Returns (Sample.reply 200 "" (Some (PyDict Sample.still_processing)));
               Returns (Sample.reply 200 "" (Some (PyDict Sample.still_processing)))]
              [0; 500000000])
           (Sample.reply 200 "" (Some (PyDict Sample.job)))
           Sample.job {["output_url" := PyStr "https://poll"]} "https://poll"
           [Returns (Sample.reply 200 "" (Some (PyDict Sample.still_processing)))]
           [0] 500000000
           (Returns (Sample.reply 200 "" (Some (PyDict Sample.still_processing))))
           [] []
           eq_refl eq_refl eq_refl eq_refl eq_refl eq_refl (or_introl eq_refl)
           eq_refl eq_refl
           ltac:(repeat constructor)
           ltac:(repeat constructor)
           eq_refl ltac:(lia)) as [E _].
  rewrite E. reflexivity.
Defined.

(** C3, the failing input: the job is announced, and both polls, the
    second at a clock reading of 500 seconds, still report [processing].
    What the call raises is the builtin [Exception], not one of the
    library's typed errors. *)
Lemma polling_timeout_failing_input :
  fst <$> @Client._make_request Sample.builtins Sample.constants Sample.http GET
            "video" None None ∅
            (Sample.world
               [Returns (Sample.reply 200 "" (Some (PyDict Sample.job)));
                Returns (Sample.reply 200 "" (Some (PyDict Sample.still_processing)));
                Returns (Sample.reply 200 "" (Some (PyDict Sample.still_processing)))]
               [0; 500000000])
  = Some (Raises (PyException "Stuck on processing status"))
  /\ typed_error (PyException "Stuck on processing status") = false.
Proof. split; vm_compute; reflexivity. Qed.

(** ** HTTP errors *)

Section HttpErrors.
Context `{Builtins} `{Constants}.

(** A call answered by a 4xx or 5xx response ends in
    [_handle_request_error] on the [HTTPError] of [raise_for_status]. *)
Lemma make_request_http_error self method path b h kw w r later :
  wire w = Returns r :: later ->
  http_error_status r = true ->
  Client._make_request self method path b h kw w
  = Client._handle_request_error
      {| cls := HTTPError; description := http_error_msg r; response := Some r |}
      (answered [Client.request_of self method path b h kw] later w).
Proof.
  intros Hw Hs.
  unfold Client._make_request, try_except, bind, http_call, raise_for_status.
  rewrite Hw, Hs. reflexivity.
Qed.

Lemma handle_http_error_object r d text_of_e w :
  json_body r = Some (PyDict d) ->
  Client._handle_request_error
    {| cls := HTTPError; description := text_of_e; response := Some r |} w
  = Some (Raises (http_error_of r
                    (py_str (default (PyStr "Unknown error") (d !! "message")))), w).
Proof.
  intros Hb.
  unfold Client._handle_request_error, Client.error_message_of, http_error_of.
  cbn [isinstance_HTTPError cls response].
  unfold bind, try_except, Response_json. rewrite Hb.
  cbn [ret py_get]. destruct (status_code r =? 401); reflexivity.
Qed.

Lemma handle_http_error_not_json r text_of_e w :
  json_body r = None ->
  Client._handle_request_error
    {| cls := HTTPError; description := text_of_e; response := Some r |} w
  = Some (Raises (http_error_of r (text r)), w).
Proof.
  intros Hb.
  unfold Client._handle_request_error, Client.error_message_of, http_error_of.
  cbn [isinstance_HTTPError cls response].
  unfold bind, try_except, Response_json. rewrite Hb.
  cbn [raise isinstance_ValueError ret py_str].
  destruct (status_code r =? 401); reflexivity.
Qed.

(** C2 (amended). A response with a status code from 400 to 599 whose body
    is a JSON object, or is not JSON at all, makes the request call raise
    [AuthenticationError] when the code is 401 and [InvalidRequestError]
    for any other code; the error carries the response and the call
    returns no value. *)
Theorem http_error_raises_typed self method path b h kw
    (w : World) (r : Response) later :
  wire w = Returns r :: later ->
  http_error_status r = true ->
  json_body r = None \/ (exists d, json_body r = Some (PyDict d)) ->
  exists msg,
    Client._make_request self method path b h kw w
    = Some (Raises (if status_code r =? 401
                    then AuthenticationError msg (Some r)
                    else InvalidRequestError msg (Some r)),
            answered [Client.request_of self method path b h kw] later w).
Proof.
  intros Hw Hs Hb.
  rewrite (make_request_http_error _ _ _ _ _ _ _ _ _ Hw Hs).
  destruct Hb as [Hb | [d Hb]].
  - rewrite (handle_http_error_not_json _ _ _ Hb). unfold http_error_of.
    destruct (status_code r =? 401); eexists; reflexivity.
  - rewrite (handle_http_error_object _ _ _ _ Hb). unfold http_error_of.
    destruct (status_code r =? 401); eexists; reflexivity.
Qed.

(** C4 (amended). For a response with a status code from 400 to 599 the
    raised error's message is "Error: " (code 401) or "Invalid request: "
    (any other code) followed by: the body's [message] field when the body
    is a JSON object that has one (a string is taken verbatim); the
    generic "Unknown error" when the body is a JSON object without
    [message]; the raw body text when the body is not JSON. *)
Theorem http_error_message self method path b h kw
    (w : World) (r : Response) later :
  wire w = Returns r :: later ->
  http_error_status r = true ->
  let label := if status_code r =? 401 then "Error: " else "Invalid request: " in
  let message := raised_message (Client._make_request self method path b h kw w) in
  (forall d m, json_body r = Some (PyDict d) -> d !! "message" = Some m ->
               message = Some (label +:+ py_str m))
  /\ (forall d s, json_body r = Some (PyDict d) -> d !! "message" = Some (PyStr s) ->
                  message = Some (label +:+ s))
  /\ (forall d, json_body r = Some (PyDict d) -> d !! "message" = None ->
                message = Some (label +:+ "Unknown error"))
  /\ (json_body r = None -> message = Some (label +:+ text r)).
Proof.
  intros Hw Hs label message. subst label message.
  rewrite (make_request_http_error _ _ _ _ _ _ _ _ _ Hw Hs).
  repeat split.
  - intros d m Hb Hm. rewrite (handle_http_error_object _ _ _ _ Hb), Hm.
    unfold http_error_of. destruct (status_code r =? 401); reflexivity.
  - intros d s Hb Hm. rewrite (handle_http_error_object _ _ _ _ Hb), Hm.
    unfold http_error_of. destruct (status_code r =? 401); reflexivity.
  - intros d Hb Hm. rewrite (handle_http_error_object _ _ _ _ Hb), Hm.
    unfold http_error_of. destruct (status_code r =? 401); reflexivity.
  - intros Hb. rewrite (handle_http_error_not_json _ _ _ Hb).
    unfold http_error_of. destruct (status_code r =? 401); reflexivity.
Qed.

End HttpErrors.

Lemma http_error_raises_typed_witness :
  exists msg,
    @Client._make_request Sample.builtins Sample.constants Sample.http GET "video"
      None None ∅
      (Sample.world [Returns (Sample.reply 401 "" (Some (PyDict Sample.complaint)))] [])
    = Some (Raises (AuthenticationError msg
                      (Some (Sample.reply 401 "" (Some (PyDict Sample.complaint))))),
            answered
              [@Client.request_of Sample.constants Sample.http GET "video" None None ∅]
              []
              (Sample.world
                 [Returns (Sample.reply 401 "" (Some (PyDict Sample.complaint)))] [])).
Proof.
  exact (@http_error_raises_typed Sample.builtins Sample.constants
           Sample.http GET "video" None None ∅
           (Sample.world
              [Returns (Sample.reply 401 "" (Some (PyDict Sample.complaint)))] [])
           (Sample.reply 401 "" (Some (PyDict Sample.complaint))) []
           eq_refl eq_refl (or_intror (ex_intro _ Sample.complaint eq_refl))).
Defined.

(** C2, as stated, fails: 300 is no 2xx status code, and the call returns
    the envelope's [data]. *)
Lemma non_2xx_returns_counterexample :
  (200 <=? 300) && (300 <? 300) = false
  /\ fst <$> @Client._make_request Sample.builtins Sample.constants Sample.http GET
               "video" None None ∅
               (Sample.world [Returns (Sample.reply 300 "" (Some (PyDict Sample.done)))] [])
     = Some (Returns (PyInt 7)).
Proof. split; vm_compute; reflexivity. Qed.

(** Outside the amended C2: an error body that is JSON but no object (here
    the empty array) ends the call in an [AttributeError]. *)
Example http_error_array_body :
  fst <$> @Client._make_request Sample.builtins Sample.constants Sample.http GET
            "video" None None ∅
            (Sample.world [Returns (Sample.reply 500 "[]" (Some (PyList [])))] [])
  = Some (Raises AttributeError).
Proof. vm_compute. reflexivity. Qed.

Lemma http_error_message_witness :
  raised_message
    (@Client._make_request Sample.builtins Sample.constants Sample.http GET "video"
       None None ∅
       (Sample.world [Returns (Sample.reply 401 "" (Some (PyDict Sample.complaint)))] []))
  = Some "Error: bad token".
Proof.
  exact (proj1 (proj2
           (@http_error_message Sample.builtins Sample.constants
              Sample.http GET "video" None None ∅
              (Sample.world
                 [Returns (Sample.reply 401 "" (Some (PyDict Sample.complaint)))] [])
              (Sample.reply 401 "" (Some (PyDict Sample.complaint))) []
              eq_refl eq_refl))
           Sample.complaint "bad token" eq_refl eq_refl).
Defined.

(** C4, as stated, fails: the body is the JSON object [{}], which has no
    [message]; the stated rule falls back on the raw body text, and the
    raised message is the generic one and does not contain that text. *)
Lemma message_precedence_counterexample :
  @spec_error_message Sample.builtins (Sample.reply 400 "{}" (Some (PyDict ∅))) = "{}"
  /\ raised_message
       (@Client._make_request Sample.builtins Sample.constants Sample.http GET "video"
          None None ∅
          (Sample.world [Returns (Sample.reply 400 "{}" (Some (PyDict ∅)))] []))
     = Some "Invalid request: Unknown error"
  /\ str_contains "Invalid request: Unknown error" "{}" = false.
Proof. repeat split; vm_compute; reflexivity. Qed.

(** ** [upload] *)

Section UploadGuard.
Context `{Builtins} `{Constants} `{Environ}.

(** C8. [upload] raises the library's generic [VideodbError] when the
    caller supplies neither [file_path] nor [url], and when the caller
    supplies both (an argument counts as supplied when it is a non-empty
    string, which is how the code tests it); the world is left as it was:
    no request is issued. *)
Theorem upload_needs_exactly_one_source _connection
    (file_path url media_type name description callback_url : option string)
    (w : World) :
  truthy_opt file_path = truthy_opt url ->
  upload _connection file_path url media_type name description callback_url w
  = Some (Raises (VideodbError
                    (if truthy_opt file_path
                     then "Only one of file_path or url is allowed"
                     else "Either file_path or url is required")
                    None), w).
Proof.
  intros Hsame. unfold upload. rewrite <- Hsame.
  destruct (truthy_opt file_path); reflexivity.
Qed.

End UploadGuard.

Lemma upload_needs_exactly_one_source_witness :
  @upload Sample.builtins Sample.constants Sample.environ Sample.connection
    None None None None None None (Sample.world [] [])
  = Some (Raises (VideodbError "Either file_path or url is required" None),
          Sample.world [] [])
  /\ @upload Sample.builtins Sample.constants Sample.environ Sample.connection
       (Some "clip.mp4") (Some "https://host/clip.mp4") None None None None
       (Sample.world [] [])
     = Some (Raises (VideodbError "Only one of file_path or url is allowed" None),
             Sample.world [] []).
Proof.
  split.
  - exact (@upload_needs_exactly_one_source Sample.builtins Sample.constants
             Sample.environ Sample.connection None None None None None None
             (Sample.world [] []) eq_refl).
  - exact (@upload_needs_exactly_one_source Sample.builtins Sample.constants
             Sample.environ Sample.connection
             (Some "clip.mp4") (Some "https://host/clip.mp4") None None None None
             (Sample.world [] []) eq_refl).
Defined.

(** * Further properties *)

(** ** The request call *)

Section MoreClient.
Context `{Builtins} `{Constants}.

(** [_handle_request_error] never returns: it raises, and what it raises
    is no [requests] exception; the world is left as it is. *)
Lemma handle_request_error_raises e w :
  exists e', Client._handle_request_error e w = Some (Raises e', w)
             /\ forall q, e' <> Requests q.
Proof.
  unfold Client._handle_request_error.
  destruct (isinstance_HTTPError e).
  - unfold bind, Client.error_message_of, try_except.
    destruct (response e) as [r|]; [| eexists; split; [reflexivity | discriminate]].
    unfold bind, Response_json.
    destruct (json_body r) as [v|]; cbn [ret raise isinstance_ValueError].
    + destruct v; cbn [py_get raise ret isinstance_ValueError];
        try (eexists; split; [reflexivity | discriminate]).
      destruct (status_code r =? 401); eexists; split;
        try reflexivity; discriminate.
    + destruct (status_code r =? 401); eexists; split;
        try reflexivity; discriminate.
  - destruct (isinstance_RetryError e); [eexists; split; [reflexivity | discriminate]|].
    destruct (isinstance_Timeout e); [eexists; split; [reflexivity | discriminate]|].
    destruct (isinstance_ConnectionError e);
      eexists; split; try reflexivity; discriminate.
Qed.


(** X1. When the HTTP call itself raises a [requests] exception that is no
    [HTTPError], the request call raises [InvalidRequestError] carrying the
    exception's response; the message is "Invalid request: " followed by
    "Max retries exceeded" for a [RetryError], "Request timed out" for a
    [Timeout] (a [ConnectTimeout] included, though it is a
    [ConnectionError] too), "Connection error" for a [ConnectionError],
    and the exception's own text otherwise. *)
Theorem transport_failure_raises_invalid_request self method path b h kw
    (w : World) (e : RequestException) later :
  wire w = Raises (Requests e) :: later ->
  cls e <> HTTPError ->
  exists m,
    Client._make_request self method path b h kw w
    = Some (Raises (InvalidRequestError ("Invalid request: " +:+ m) (response e)),
            answered [Client.request_of self method path b h kw] later w)
    /\ (cls e = RetryError -> m = "Max retries exceeded")
    /\ (cls e = Timeout \/ cls e = ConnectTimeout -> m = "Request timed out")
    /\ (cls e = ConnectionError -> m = "Connection error")
    /\ (cls e = MissingSchema \/ cls e = OtherRequestException -> m = description e).
Proof.
  intros Hw Hc.
  unfold Client._make_request, try_except, bind, http_call. rewrite Hw.
  unfold Client._handle_request_error, isinstance_HTTPError, isinstance_RetryError,
    isinstance_Timeout, isinstance_ConnectionError.
  destruct (cls e) eqn:Hcls; try congruence;
    eexists; (split; [reflexivity |]);
    repeat split; intros; try reflexivity;
    repeat match goal with Hx : _ \/ _ |- _ => destruct Hx end; discriminate.
Qed.

(** X3. A response that is no HTTP error and whose body is not JSON makes
    the request call raise [InvalidRequestError] with the message
    "Invalid request: " followed by the raw body text. *)
Theorem undecodable_body_raises_invalid_request self method path b h kw
    (w : World) (r : Response) later :
  wire w = Returns r :: later ->
  http_error_status r = false ->
  json_body r = None ->
  Client._make_request self method path b h kw w
  = Some (Raises (InvalidRequestError ("Invalid request: " +:+ text r) (Some r)),
          answered [Client.request_of self method path b h kw] later w).
Proof.
  intros Hw Hs Hb.
  rewrite (make_request_answered _ _ _ _ _ _ _ _ _ Hw Hs).
  unfold try_except, Client._parse_response, try_except, bind, Response_json.
  rewrite Hb. reflexivity.
Qed.

(** X4. A response that is no HTTP error and whose body is JSON but no
    object (an array, a string, a number, [null]) makes the request call
    raise [AttributeError]: no [except] clause catches it. *)
Theorem non_object_body_raises_AttributeError self method path b h kw
    (w : World) (r : Response) later (v : pyval) :
  wire w = Returns r :: later ->
  http_error_status r = false ->
  json_body r = Some v ->
  (forall d, v <> PyDict d) ->
  Client._make_request self method path b h kw w
  = Some (Raises AttributeError,
          answered [Client.request_of self method path b h kw] later w).
Proof.
  intros Hw Hs Hb Hv.
  rewrite (make_request_answered _ _ _ _ _ _ _ _ _ Hw Hs).
  unfold try_except, Client._parse_response, try_except, bind, Response_json.
  rewrite Hb.
  destruct v; try reflexivity. now destruct (Hv entries).
Qed.

(** X5. An envelope with status [processing] and request type [sync] (or
    none) whose [data] is missing or is no object makes the request call
    raise [AttributeError], before any polling request. *)
Theorem sync_job_without_data_raises_AttributeError self method path b h kw
    (w : World) (r : Response) later (d : gmap string pyval) :
  wire w = Returns r :: later ->
  http_error_status r = false ->
  json_body r = Some (PyDict d) ->
  d !! "status" = Some (PyStr Status_processing) ->
  d !! "request_type" = None \/ d !! "request_type" = Some (PyStr "sync") ->
  (forall data, d !! "data" <> Some (PyDict data)) ->
  Client._make_request self method path b h kw w
  = Some (Raises AttributeError,
          answered [Client.request_of self method path b h kw] later w).
Proof.
  intros Hw Hs Hb Hst Hrt Hd.
  rewrite (make_request_answered _ _ _ _ _ _ _ _ _ Hw Hs).
  unfold try_except at 1.
  unfold Client._parse_response, try_except, bind at 1, Response_json.
  rewrite Hb. unfold ret at 1. unfold bind at 1.
  rewrite processing_with_dict, (status_is _ _ Hst).
  assert (default (PyStr "sync") (d !! "request_type") = PyStr "sync") as Hty
    by (destruct Hrt as [-> | ->]; reflexivity).
  rewrite Hty.
  cbn [py_eq_str andb]. rewrite bool_decide_eq_false_2 by discriminate.
  unfold bind at 1.
  rewrite processing_with_dict, (status_is _ _ Hst), Hty.
  cbn [py_eq_str andb]. rewrite bool_decide_eq_true_2 by reflexivity.
  unfold bind at 1, py_get at 1, ret at 1.
  destruct (d !! "data") as [v|] eqn:Hdata; cbn [default from_option id].
  - destruct v; try reflexivity. now destruct (Hd entries).
  - reflexivity.
Qed.

End MoreClient.

(** ** The polling loop *)

Section MorePolling.
Context `{Builtins} `{Constants}.

(** One try on an answer it fails on raises [try_error] of that answer. *)
Lemma get_output_try_fails U w a later e :
  wire w = a :: later ->
  try_error a = Some e ->
  Client._get_output_try U w = Some (Raises e, answered [plain_get U] later w).
Proof.
  intros Hw He.
  unfold Client._get_output_try, bind, http_call, Response_json. rewrite Hw.
  destruct a as [r|e0]; cbn [try_error] in He; [| now injection He as ->].
  destruct (json_body r) as [v|]; [| now injection He as <-].
  destruct v as [| | | | |d]; try (now injection He as <-).
  destruct (pending_body (PyDict d)) eqn:Hp; [| discriminate].
  injection He as <-. cbn [pending_body] in Hp.
  cbn [ret py_get].
  destruct (py_eq_str _ Status_in_progress); cbn [orb] in Hp; [reflexivity |].
  now rewrite Hp.
Qed.

(** The loop walks through failing tries as long as the clock readings
    stay under the ceiling. *)
Lemma retry_loop_failing U polls : forall ticks fuel w later later_clock,
  length ticks = length polls ->
  Forall (fun a => try_error a <> None) polls ->
  Forall (fun t => t < 500 * 1000000) ticks ->
  wire w = polls ++ later ->
  clock w = ticks ++ later_clock ->
  retry_loop 500 (Client._get_output_try U) (length polls + fuel) w
  = retry_loop 500 (Client._get_output_try U) fuel
      {| wire := later; clock := later_clock;
         requested := requested w ++ repeat (plain_get U) (length polls);
         files := files w |}.
Proof.
  induction polls as [|a polls IH]; intros ticks fuel w later later_clock Hlen Hp Ht Hw Hc.
  - destruct ticks; [|discriminate]. simpl in *.
    rewrite app_nil_r. destruct w; simpl in *; subst. reflexivity.
  - destruct ticks as [|t ticks]; [discriminate|].
    inversion Hp as [|? ? Hpa Hps]; subst. inversion Ht as [|? ? Hta Hts]; subst.
    simpl in Hlen. injection Hlen as Hlen.
    destruct (try_error a) as [e|] eqn:He; [| congruence].
    cbn [length Nat.add retry_loop].
    unfold bind at 1, read_elapsed at 1. rewrite Hc. cbn [app].
    unfold try_except at 1.
    erewrite get_output_try_fails; [| exact Hw | exact He].
    destruct (500 * 1000000 <=? t) eqn:Hle; [apply Z.leb_le in Hle; lia|].
    rewrite (IH ticks fuel _ later later_clock); trivial.
    simpl. unfold answered. simpl. rewrite <- app_assoc. reflexivity.
Qed.

(** X6. [_get_output] retries a try that fails in any way, not only on a
    pending status: after tries that raised (a transport exception, a body
    that is not JSON or no object, a pending status), each under the
    ceiling, the first terminal answer is returned, one plain GET having
    been made for every try. *)
Theorem get_output_retries_failed_tries (U : pyval) (w : World)
    (polls : list (outcome Response)) (ticks : list Z) (t : Z)
    (r : Response) (d : gmap string pyval) later later_clock :
  wire w = polls ++ Returns r :: later ->
  clock w = ticks ++ t :: later_clock ->
  length ticks = length polls ->
  Forall (fun a => try_error a <> None) polls ->
  Forall (fun t => t < 500 * 1000000) ticks ->
  json_body r = Some (PyDict d) ->
  pending_body (PyDict d) = false ->
  Client._get_output U w
  = Some (Returns (effective_envelope d),
          {| wire := later; clock := later_clock;
             requested := requested w ++ repeat (plain_get U) (S (length polls));
             files := files w |}).
Proof.
  intros Hw Hc Hlen Hp Ht Hb Hd.
  unfold Client._get_output, on_exception.
  rewrite Hc, length_app, Hlen. rewrite <- Nat.add_succ_r.
  rewrite (retry_loop_failing U polls ticks _ w (Returns r :: later) (t :: later_clock));
    trivial.
  cbn [length retry_loop]. unfold bind, read_elapsed, try_except. cbn [clock].
  erewrite get_output_try_terminal; [| reflexivity | exact Hb | exact Hd ].
  unfold answered. cbn [wire clock requested files].
  rewrite <- app_assoc, <- repeat_cons. reflexivity.
Qed.

(** At give-up the loop raises the exception of its last try. *)
Lemma get_output_gives_up_general (U : pyval) (w : World)
    (polls : list (outcome Response)) (ticks : list Z) (t : Z)
    (a : outcome Response) (e : exn) later later_clock :
  wire w = polls ++ a :: later ->
  clock w = ticks ++ t :: later_clock ->
  length ticks = length polls ->
  Forall (fun a => try_error a <> None) polls ->
  Forall (fun t => t < 500 * 1000000) ticks ->
  try_error a = Some e ->
  500 * 1000000 <= t ->
  Client._get_output U w
  = Some (Raises e,
          {| wire := later; clock := later_clock;
             requested := requested w ++ repeat (plain_get U) (S (length polls));
             files := files w |}).
Proof.
  intros Hw Hc Hlen Hp Ht Ha Hle.
  unfold Client._get_output, on_exception.
  rewrite Hc, length_app, Hlen. rewrite <- Nat.add_succ_r.
  rewrite (retry_loop_failing U polls ticks _ w (a :: later) (t :: later_clock));
    trivial.
  cbn [length retry_loop]. unfold bind, read_elapsed, try_except. cbn [clock].
  erewrite get_output_try_fails; [| reflexivity | exact Ha ].
  apply Z.leb_le in Hle. rewrite Hle.
  unfold raise, answered. cbn [wire clock requested files].
  rewrite <- app_assoc, <- repeat_cons. reflexivity.
Qed.


(** X7. When a try of [_get_output] fails and its clock reading has
    reached the ceiling, [_get_output] raises the exception of that last
    try, whatever the earlier tries raised. *)
Theorem get_output_gives_up_with_last_exception (U : pyval) (w : World)
    (polls : list (outcome Response)) (ticks : list Z) (t : Z)
    (a : outcome Response) (e : exn) later later_clock :
  wire w = polls ++ a :: later ->
  clock w = ticks ++ t :: later_clock ->
  length ticks = length polls ->
  Forall (fun a => try_error a <> None) polls ->
  Forall (fun t => t < 500 * 1000000) ticks ->
  try_error a = Some e ->
  500 * 1000000 <= t ->
  Client._get_output U w
  = Some (Raises e,
          {| wire := later; clock := later_clock;
             requested := requested w ++ repeat (plain_get U) (S (length polls));
             files := files w |}).
Proof. apply get_output_gives_up_general. Qed.

(** X8. When the polling loop gives up on an answer whose body is not
    JSON, the request call raises [InvalidRequestError] whose message and
    response are those of the original response, not of the polled one. *)
Theorem undecodable_poll_at_give_up_reports_first_body self method path b h kw
    (w : World) (r0 : Response) (d0 data0 : gmap string pyval) (U : string)
    (polls : list (outcome Response)) (ticks : list Z) (t : Z)
    (rl : Response) later later_clock :
  wire w = Returns r0 :: polls ++ Returns rl :: later ->
  clock w = ticks ++ t :: later_clock ->
  length ticks = length polls ->
  http_error_status r0 = false ->
  json_body r0 = Some (PyDict d0) ->
  d0 !! "status" = Some (PyStr Status_processing) ->
  d0 !! "request_type" = None \/ d0 !! "request_type" = Some (PyStr "sync") ->
  d0 !! "data" = Some (PyDict data0) ->
  data0 !! "output_url" = Some (PyStr U) ->
  Forall (fun a => try_error a <> None) polls ->
  Forall (fun t => t < 500 * 1000000) ticks ->
  json_body rl = None ->
  500 * 1000000 <= t ->
  Client._make_request self method path b h kw w
  = Some (Raises (InvalidRequestError ("Invalid request: " +:+ text r0) (Some r0)),
          {| wire := later; clock := later_clock;
             requested := requested w
                          ++ Client.request_of self method path b h kw
                             :: repeat (plain_get (PyStr U)) (S (length polls));
             files := files w |}).
Proof.
  intros Hw Hc Hlen Hs0 Hb0 Hst Hrt Hd Hu Hp Ht Hbl Hle.
  rewrite (make_request_answered _ _ _ _ _ _ _ _ _ Hw Hs0).
  unfold try_except at 1.
  rewrite (parse_response_sync _ d0 data0 (PyStr U)) by trivial.
  unfold try_except, bind.
  rewrite (get_output_gives_up_general _ _ polls ticks t (Returns rl) ValueError
             later later_clock); trivial; [| cbn [try_error]; now rewrite Hbl].
  cbn [isinstance_ValueError raise answered requested files].
  now rewrite <- app_assoc.
Qed.

(** X9. When the polling loop gives up on a connection error, the request
    call raises [InvalidRequestError] with the message
    "Invalid request: Connection error". *)
Theorem connection_error_at_give_up_is_typed self method path b h kw
    (w : World) (r0 : Response) (d0 data0 : gmap string pyval) (U : string)
    (polls : list (outcome Response)) (ticks : list Z) (t : Z)
    (e : RequestException) later later_clock :
  wire w = Returns r0 :: polls ++ Raises (Requests e) :: later ->
  clock w = ticks ++ t :: later_clock ->
  length ticks = length polls ->
  http_error_status r0 = false ->
  json_body r0 = Some (PyDict d0) ->
  d0 !! "status" = Some (PyStr Status_processing) ->
  d0 !! "request_type" = None \/ d0 !! "request_type" = Some (PyStr "sync") ->
  d0 !! "data" = Some (PyDict data0) ->
  data0 !! "output_url" = Some (PyStr U) ->
  Forall (fun a => try_error a <> None) polls ->
  Forall (fun t => t < 500 * 1000000) ticks ->
  cls e = ConnectionError ->
  500 * 1000000 <= t ->
  Client._make_request self method path b h kw w
  = Some (Raises (InvalidRequestError "Invalid request: Connection error" (response e)),
          {| wire := later; clock := later_clock;
             requested := requested w
                          ++ Client.request_of self method path b h kw
                             :: repeat (plain_get (PyStr U)) (S (length polls));
             files := files w |}).
Proof.
  intros Hw Hc Hlen Hs0 Hb0 Hst Hrt Hd Hu Hp Ht Hcls Hle.
  rewrite (make_request_answered _ _ _ _ _ _ _ _ _ Hw Hs0).
  unfold try_except at 1.
  rewrite (parse_response_sync _ d0 data0 (PyStr U)) by trivial.
  unfold try_except, bind.
  rewrite (get_output_gives_up_general _ _ polls ticks t (Raises (Requests e))
             (Requests e) later later_clock); trivial.
  cbn [isinstance_ValueError]. rewrite Hcls.
  unfold Client._handle_request_error, isinstance_HTTPError, isinstance_RetryError,
    isinstance_Timeout, isinstance_ConnectionError. rewrite Hcls.
  cbn [raise answered requested files].
  now rewrite <- app_assoc.
Qed.

End MorePolling.

(** ** The calls a request makes *)

Section Log.
Context `{Builtins} `{Constants}.

Lemma keeps_ret {A} (a : A) : keeps_world (ret a).
Proof. intros w o w' [= <- <-]. reflexivity. Qed.

Lemma keeps_raise {A} (e : exn) : keeps_world (@raise A e).
Proof. intros w o w' [= <- <-]. reflexivity. Qed.

Lemma keeps_bind {A B} (m : M A) (k : A -> M B) :
  keeps_world m -> (forall a, keeps_world (k a)) -> keeps_world (bind m k).
Proof.
  intros Hm Hk w o w'. unfold bind.
  destruct (m w) as [[[a|e] w1]|] eqn:E; try discriminate.
  - intros E2. apply Hk in E2. apply Hm in E. congruence.
  - intros [= <- <-]. now apply Hm in E.
Qed.

Lemma keeps_try_except {A} (body : M A) handler :
  keeps_world body ->
  (forall e h, handler e = Some h -> keeps_world h) ->
  keeps_world (try_except body handler).
Proof.
  intros Hb Hh w o w'. unfold try_except.
  destruct (body w) as [[[a|e] w1]|] eqn:E; try discriminate.
  - intros [= <- <-]. now apply Hb in E.
  - destruct (handler e) as [h0|] eqn:Eh.
    + intros E2. apply (Hh _ _ Eh) in E2. apply Hb in E. congruence.
    + intros [= <- <-]. now apply Hb in E.
Qed.

Lemma keeps_py_get o key dflt : keeps_world (py_get o key dflt).
Proof. destruct o; first [apply keeps_ret | apply keeps_raise]. Qed.

Lemma keeps_Response_json r : keeps_world (Response_json r).
Proof.
  unfold Response_json. destruct (json_body r); [apply keeps_ret | apply keeps_raise].
Qed.

Lemma keeps_processing_with v kind : keeps_world (Client.processing_with v kind).
Proof.
  apply keeps_bind; [apply keeps_py_get |]. intros st.
  destruct (py_eq_str st Status_processing); [| apply keeps_ret].
  apply keeps_bind; [apply keeps_py_get |]. intros rt. apply keeps_ret.
Qed.

Lemma keeps_data_or_invalid v r : keeps_world (Client.data_or_invalid v r).
Proof.
  apply keeps_bind; [apply keeps_py_get |]. intros s.
  destruct (truthy s); [apply keeps_py_get |].
  apply keeps_bind; [apply keeps_py_get |]. intros m. apply keeps_raise.
Qed.

Lemma keeps_handle_request_error e : keeps_world (Client._handle_request_error e).
Proof.
  intros w o w' E.
  destruct (handle_request_error_raises e w) as (e' & E' & _). congruence.
Qed.

(** A try that completes has made one plain GET and taken one answer. *)
Lemma get_output_try_step U w o w' :
  Client._get_output_try U w = Some (o, w') ->
  exists a later, wire w = a :: later /\ w' = answered [plain_get U] later w.
Proof.
  unfold Client._get_output_try. unfold bind at 1, http_call.
  destruct (wire w) as [|a later]; [discriminate |].
  intros E. exists a, later. split; [reflexivity |].
  destruct a as [r|e]; [| now injection E as <- <-].
  revert E. generalize (answered [plain_get U] later w). intros w1 E.
  assert (keeps_world
            (let* response_json := Response_json r in
             let* status := py_get response_json "status" PyNone in
             let* pending :=
               (if py_eq_str status Status_in_progress then ret true
                else let* status := py_get response_json "status" PyNone in
                     ret (py_eq_str status Status_processing)) in
             if pending : bool then raise (PyException "Stuck on processing status")
             else let* inner := py_get response_json "response" PyNone in
                  ret (py_or inner response_json))) as K.
  { apply keeps_bind; [apply keeps_Response_json |]. intros v.
    apply keeps_bind; [apply keeps_py_get |]. intros st.
    apply keeps_bind.
    - destruct (py_eq_str st Status_in_progress); [apply keeps_ret |].
      apply keeps_bind; [apply keeps_py_get |]. intros; apply keeps_ret.
    - intros [|]; [apply keeps_raise |].
      apply keeps_bind; [apply keeps_py_get |]. intros; apply keeps_ret. }
  now apply K in E.
Qed.

(** Whatever the loop ends with, it has made plain GETs to its URL and
    nothing else. *)
Lemma retry_loop_log U fuel : forall w o w',
  retry_loop 500 (Client._get_output_try U) fuel w = Some (o, w') ->
  exists n, requested w' = requested w ++ repeat (plain_get U) n
            /\ files w' = files w.
Proof.
  induction fuel as [|fuel IH]; intros w o w'; [discriminate |].
  cbn [retry_loop]. unfold bind at 1, read_elapsed.
  destruct (clock w) as [|t ticks]; [discriminate |].
  unfold try_except.
  destruct (Client._get_output_try U _) as [[[v|e] w1]|] eqn:E; try discriminate;
    apply get_output_try_step in E as (a & later & Hw & ->).
  - intros [= <- <-]. exists 1%nat. split; reflexivity.
  - destruct (500 * 1000000 <=? t).
    + intros [= <- <-]. exists 1%nat. split; reflexivity.
    + intros E. apply IH in E as (n & Hr & Hf). exists (S n).
      rewrite Hr, Hf. cbn [answered requested files repeat].
      rewrite <- app_assoc. split; reflexivity.
Qed.

Lemma keeps_only_polls {A} (m : M A) : keeps_world m -> only_polls m.
Proof.
  intros K w o w' E. apply K in E as ->.
  exists PyNone, 0%nat. now rewrite app_nil_r.
Qed.

Lemma only_polls_after {A B} (m : M A) (k : A -> M B) :
  keeps_world m -> (forall a, only_polls (k a)) -> only_polls (bind m k).
Proof.
  intros Hm Hk w o w'. unfold bind.
  destruct (m w) as [[[a|e] w1]|] eqn:E; try discriminate;
    apply Hm in E as ->.
  - apply Hk.
  - intros [= <- <-]. exists PyNone, 0%nat. now rewrite app_nil_r.
Qed.

Lemma only_polls_then {A B} (m : M A) (k : A -> M B) :
  only_polls m -> (forall a, keeps_world (k a)) -> only_polls (bind m k).
Proof.
  intros Hm Hk w o w'. unfold bind.
  destruct (m w) as [[[a|e] w1]|] eqn:E; try discriminate.
  - intros E2. apply Hk in E2 as ->. now apply Hm in E.
  - intros [= <- <-]. now apply Hm in E.
Qed.

Lemma only_polls_try_except {A} (body : M A) handler :
  only_polls body ->
  (forall e h, handler e = Some h -> keeps_world h) ->
  only_polls (try_except body handler).
Proof.
  intros Hb Hh w o w'. unfold try_except.
  destruct (body w) as [[[a|e] w1]|] eqn:E; try discriminate.
  - intros [= <- <-]. now apply Hb in E.
  - destruct (handler e) as [h0|] eqn:Eh.
    + intros E2. apply (Hh _ _ Eh) in E2 as ->. now apply Hb in E.
    + intros [= <- <-]. now apply Hb in E.
Qed.

Lemma only_polls_get_output U : only_polls (Client._get_output U).
Proof.
  intros w o w' E. unfold Client._get_output, on_exception in E.
  apply retry_loop_log in E as (n & Hr & Hf). now exists U, n.
Qed.

Lemma only_polls_parse_response r : only_polls (Client._parse_response r).
Proof.
  unfold Client._parse_response. apply only_polls_try_except.
  - apply only_polls_after; [apply keeps_Response_json |]. intros v.
    apply only_polls_after; [apply keeps_processing_with |]. intros [|].
    + apply keeps_only_polls, keeps_ret.
    + apply only_polls_after; [apply keeps_processing_with |]. intros [|].
      * apply only_polls_after; [apply keeps_py_get |]. intros data.
        apply only_polls_after; [apply keeps_py_get |]. intros u.
        apply only_polls_then; [apply only_polls_get_output |].
        intros rj. apply keeps_data_or_invalid.
      * apply keeps_only_polls, keeps_data_or_invalid.
  - intros e h0. destruct (isinstance_ValueError e); [| discriminate].
    intros [= <-]. apply keeps_raise.
Qed.

Lemma keeps_raise_for_status r : keeps_world (raise_for_status r).
Proof.
  unfold raise_for_status.
  destruct (http_error_status r); [apply keeps_raise | apply keeps_ret].
Qed.

(** What holds of the world after the body of a [try] holds after the
    whole statement, when the handlers leave the world as it is. *)
Lemma try_except_world {A} (body : M A) handler (P : World -> Prop) w o w' :
  (forall o1 w1, body w = Some (o1, w1) -> P w1) ->
  (forall e h, handler e = Some h -> keeps_world h) ->
  try_except body handler w = Some (o, w') ->
  P w'.
Proof.
  intros Hb Hh. unfold try_except.
  destruct (body w) as [[[a|e] w1]|] eqn:E; try discriminate.
  - intros [= <- <-]. now apply (Hb _ _ eq_refl).
  - destruct (handler e) as [h0|] eqn:Eh.
    + intros E2. apply (Hh _ _ Eh) in E2 as ->. now apply (Hb _ _ eq_refl).
    + intros [= <- <-]. now apply (Hb _ _ eq_refl).
Qed.

(** X10. Whatever the outcome of a request call, the HTTP calls it made
    are its own request followed only by plain GETs to one URL; the files
    are untouched. *)
Theorem make_request_only_polls_after_its_request self method path b h kw
    (w w' : World) (o : outcome pyval) :
  Client._make_request self method path b h kw w = Some (o, w') ->
  exists (U : pyval) (n : nat),
    requested w'
    = requested w ++ Client.request_of self method path b h kw
                     :: repeat (plain_get U) n
    /\ files w' = files w.
Proof.
  unfold Client._make_request.
  apply (try_except_world _ _
           (fun w' => exists (U : pyval) (n : nat),
              requested w'
              = requested w ++ Client.request_of self method path b h kw
                               :: repeat (plain_get U) n
              /\ files w' = files w)).
  - intros o1 w1. unfold bind at 1, http_call.
    destruct (wire w) as [|a later]; [discriminate |].
    destruct a as [r|e].
    + intros E.
      assert (only_polls (let* _ := raise_for_status r in Client._parse_response r))
        as Hp.
      { apply only_polls_after; [apply keeps_raise_for_status |].
        intros _. apply only_polls_parse_response. }
      apply Hp in E as (U & n & Hr & Hf). exists U, n.
      rewrite Hr, Hf. cbn [answered requested files].
      now rewrite <- app_assoc.
    + intros [= <- <-]. exists PyNone, 0%nat. split; reflexivity.
  - intros e h0. destruct e; try discriminate.
    intros [= <-]. apply keeps_handle_request_error.
Qed.
End Log.

(** ** The request sent, and the name of an uploaded file *)

Section RequestShape.
Context `{Builtins} `{Constants}.

(** X11. In the headers of the request that [_make_request] sends, a
    header of the call overrides the session's header of the same name,
    and every other session header is kept. *)
Theorem call_headers_override_session_headers self method path b
    (h : option (gmap string string)) kw (k : string) :
  exists hs,
    rq_headers (Client.request_of self method path b h kw) = Some hs
    /\ (forall v, default ∅ h !! k = Some v -> hs !! k = Some v)
    /\ (default ∅ h !! k = None -> hs !! k = session_headers self !! k).
Proof.
  eexists. split; [reflexivity |]. split.
  - intros v Hv. now apply lookup_union_Some_l.
  - intros Hn. now apply lookup_union_r.
Qed.

(** X12. [_make_request] takes the [timeout] keyword out of the keywords
    it forwards: the request's timeout is that keyword's value, or the
    default when the call gives none, and every other keyword is
    forwarded as it is. *)
Theorem timeout_keyword_is_not_forwarded self method path b h
    (kw : gmap string pyval) :
  rq_timeout (Client.request_of self method path b h kw)
  = Some (default HttpClientDefaultValues_timeout (kw !! "timeout"))
  /\ rq_kwargs (Client.request_of self method path b h kw) !! "timeout" = None
  /\ forall k, k <> "timeout" ->
               rq_kwargs (Client.request_of self method path b h kw) !! k = kw !! k.
Proof.
  cbn [Client.request_of rq_timeout rq_kwargs]. repeat split.
  - apply lookup_delete_eq.
  - intros k Hk. now apply lookup_delete_ne.
Qed.

(** A response that delivers [v] makes the call return [v]. *)
Lemma make_request_delivers self method path b h kw w r later v :
  wire w = Returns r :: later ->
  delivers r v ->
  Client._make_request self method path b h kw w
  = Some (Returns v, answered [Client.request_of self method path b h kw] later w).
Proof.
  intros Hw (Hs & d & s & Hb & Hst & Hsu & Ht & Hd).
  rewrite (make_request_answered _ _ _ _ _ _ _ _ _ Hw Hs).
  unfold try_except.
  rewrite (parse_response_falls_through _ d) by
    (try rewrite (status_is_not _ _ Hst); easy).
  rewrite data_or_invalid_dict, Hsu, Hd. cbn [default from_option id].
  now rewrite Ht.
Qed.

End RequestShape.

Section NameOfPath.

Lemma str_split_nonempty sep s : str_split sep s <> [].
Proof.
  destruct s as [|c s]; cbn [str_split]; [discriminate |].
  destruct (bool_decide (c = sep)); [discriminate |].
  destruct (str_split sep s); discriminate.
Qed.

(** No piece of a split holds the separator. *)
Lemma str_split_pieces_without_sep sep s :
  Forall (fun piece => has_char sep piece = false) (str_split sep s).
Proof.
  induction s as [|c s IH]; cbn [str_split].
  - repeat constructor.
  - destruct (bool_decide (c = sep)) eqn:E.
    + constructor; [reflexivity | exact IH].
    + destruct (str_split sep s) as [|piece pieces].
      * repeat constructor. cbn [has_char]. now rewrite E.
      * inversion IH; subst. constructor; [| assumption].
        cbn [has_char]. now rewrite E.
Qed.

(** A piece of a split holds only characters of the string. *)
Lemma str_split_pieces_chars c sep s :
  has_char c s = false ->
  Forall (fun piece => has_char c piece = false) (str_split sep s).
Proof.
  induction s as [|c' s IH]; cbn [str_split has_char]; intros Hc.
  - repeat constructor.
  - apply orb_false_iff in Hc as [Hc1 Hc2]. specialize (IH Hc2).
    destruct (bool_decide (c' = sep)).
    + constructor; [reflexivity | exact IH].
    + destruct (str_split sep s) as [|piece pieces].
      * repeat constructor. cbn [has_char]. now rewrite Hc1.
      * inversion IH; subst. constructor; [| assumption].
        cbn [has_char]. now rewrite Hc1.
Qed.

Lemma last_satisfies {A} (P : A -> Prop) (l : list A) dflt :
  l <> [] -> Forall P l -> P (List.last l dflt).
Proof.
  induction l as [|x l IH]; [congruence |]. intros _ HF.
  inversion HF; subst. destruct l as [|y l]; [assumption |].
  apply IH; [discriminate | assumption].
Qed.

Lemma head_satisfies {A} (P : A -> Prop) (l : list A) dflt :
  l <> [] -> Forall P l -> P (hd dflt l).
Proof. destruct l; [congruence |]. intros _ HF. now inversion HF. Qed.

(** X14. The name that [upload] reads off a file path holds neither a
    slash nor a dot. *)
Theorem name_of_path_has_no_separator (file_path : string) :
  has_char "/" (name_of_path file_path) = false
  /\ has_char "." (name_of_path file_path) = false.
Proof.
  unfold name_of_path. split.
  - apply head_satisfies; [apply str_split_nonempty |].
    apply str_split_pieces_chars.
    apply (last_satisfies (fun piece => has_char "/" piece = false));
      [apply str_split_nonempty | apply str_split_pieces_without_sep].
  - apply (head_satisfies (fun piece => has_char "." piece = false));
      [apply str_split_nonempty | apply str_split_pieces_without_sep].
Qed.

Lemma str_split_no_sep sep s :
  has_char sep s = false -> str_split sep s = [s].
Proof.
  induction s as [|c s IH]; cbn [str_split has_char]; [reflexivity |].
  intros Hc. apply orb_false_iff in Hc as [Hc1 Hc2].
  rewrite Hc1, (IH Hc2). reflexivity.
Qed.

Lemma append_empty_left (s : string) : "" +:+ s = s.
Proof. reflexivity. Qed.

Lemma append_String_left c (s t : string) : String c s +:+ t = String c (s +:+ t).
Proof. reflexivity. Qed.

Lemma last_str_split_app sep dir file :
  List.last (str_split sep (dir +:+ String sep file)) ""
  = List.last (str_split sep file) "".
Proof.
  induction dir as [|c dir IH]; rewrite ?append_empty_left, ?append_String_left; cbn [str_split].
  - rewrite bool_decide_eq_true_2 by reflexivity.
    destruct (str_split sep file) eqn:E; [now apply str_split_nonempty in E |].
    reflexivity.
  - destruct (bool_decide (c = sep)).
    + destruct (str_split sep (dir +:+ String sep file)) eqn:E;
        [now apply str_split_nonempty in E |].
      exact IH.
    + destruct (str_split sep (dir +:+ String sep file)) as [|p ps] eqn:E;
        [now apply str_split_nonempty in E |].
      destruct ps as [|p' ps].
      * exfalso. revert E. clear.
        revert p. induction dir as [|c dir IH]; rewrite ?append_empty_left, ?append_String_left;
          cbn [str_split]; intros p.
        -- rewrite bool_decide_eq_true_2 by reflexivity.
           destruct (str_split sep file) eqn:E; [now apply str_split_nonempty in E |].
           discriminate.
        -- destruct (bool_decide (c = sep)).
           ++ destruct (str_split sep (dir +:+ String sep file)) eqn:E;
                [now apply str_split_nonempty in E | discriminate].
           ++ destruct (str_split sep (dir +:+ String sep file)) as [|q qs] eqn:E;
                [now apply str_split_nonempty in E |].
              intros [= <- ->]. now apply (IH q).
      * exact IH.
Qed.

(** X15. The name that [upload] reads off a file path does not depend on
    the directory: it is the file name up to its first dot. *)
Theorem name_of_path_ignores_directory (dir file : string) :
  has_char "/" file = false ->
  name_of_path (dir +:+ "/" +:+ file) = hd "" (str_split "." file).
Proof.
  intros Hf. unfold name_of_path.
  change ("/" +:+ file) with (String "/" file).
  rewrite last_str_split_app, (str_split_no_sep _ _ Hf). reflexivity.
Qed.

End NameOfPath.

(** ** The flow of [upload] *)

Section UploadFlow.
Context `{Builtins} `{Constants} `{Environ}.

Lemma get_delivers self path kw w r later v :
  wire w = Returns r :: later ->
  delivers r v ->
  Client.get self path None None kw w
  = Some (Returns v, answered [Client.request_of self GET path None None kw] later w).
Proof. intros Hw Hd. eapply make_request_delivers; eassumption. Qed.

Lemma post_delivers self path data w r later v :
  wire w = Returns r :: later ->
  delivers r v ->
  Client.post self path data None None ∅ w
  = Some (Returns v,
          answered [Client.request_of self POST path None None (<["json" := data]> ∅)]
                   later w).
Proof.
  intros Hw Hd. unfold Client.post, bind, Client.with_json.
  rewrite lookup_empty. cbn [ret].
  eapply make_request_delivers; eassumption.
Qed.

(** The side call is skipped for an id that does not start with "m-". *)
Lemma upload_stream_skipped conn url entries w :
  entries !! "id" = None
  \/ (exists s, entries !! "id" = Some (PyStr s) /\ startswith s "m-" = false) ->
  upload_stream conn url (PyDict entries) w = Some (Returns (PyDict entries), w).
Proof.
  intros Hid. unfold upload_stream, try_except, bind, py_get, ret.
  destruct Hid as [-> | (s & -> & Hs)]; cbn [default from_option id].
  - reflexivity.
  - now rewrite Hs.
Qed.

(** X16. An upload by URL makes one call, the POST that registers the
    URL with the name, description, callback URL and media type given,
    and returns the registered data as they are when their [id] is
    missing or does not start with "m-". *)
Theorem upload_by_url_registers_once conn
    (file_path url media_type name description callback_url : option string)
    (w : World) (r : Response) later (entries : gmap string pyval) :
  truthy_opt file_path = false ->
  truthy_opt url = true ->
  wire w = Returns r :: later ->
  delivers r (PyDict entries) ->
  entries !! "id" = None
  \/ (exists s, entries !! "id" = Some (PyStr s) /\ startswith s "m-" = false) ->
  upload conn file_path url media_type name description callback_url w
  = Some (Returns (PyDict entries),
          answered [register_request conn (of_opt url) (of_opt name)
                      description callback_url media_type] later w).
Proof.
  intros Hf Hu Hw Hd Hid.
  unfold upload. rewrite Hf, Hu. cbn [negb andb].
  unfold bind at 1, ret at 1. unfold bind at 1.
  rewrite (post_delivers _ _ _ _ _ _ _ Hw Hd).
  now rewrite upload_stream_skipped.
Qed.

(** X17. When the registered data have an [id] starting with "m-",
    [upload] makes a second call, a POST to the streaming API, and returns
    the registered data with [stream_url] set to the [stream_url] of that
    answer ([None] when the answer has none). *)
Theorem upload_by_url_adds_stream_url conn
    (file_path url media_type name description callback_url : option string)
    (w : World) (r rs : Response) later (entries sd : gmap string pyval)
    (media_id : string) :
  truthy_opt file_path = false ->
  truthy_opt url = true ->
  wire w = Returns r :: Returns rs :: later ->
  delivers r (PyDict entries) ->
  entries !! "id" = Some (PyStr media_id) ->
  startswith media_id "m-" = true ->
  http_error_status rs = false ->
  json_body rs = Some (PyDict sd) ->
  upload conn file_path url media_type name description callback_url w
  = Some (Returns (PyDict (<["stream_url" := default PyNone (sd !! "stream_url")]>
                             entries)),
          answered [register_request conn (of_opt url) (of_opt name)
                      description callback_url media_type;
                    streaming_request conn (of_opt url) media_id] later w).
Proof.
  intros Hf Hu Hw Hd Hid Hm Hs Hb.
  unfold upload. rewrite Hf, Hu. cbn [negb andb].
  unfold bind at 1, ret at 1. unfold bind at 1.
  rewrite (post_delivers _ _ _ _ _ _ _ Hw Hd).
  unfold upload_stream, try_except, bind, py_get, ret. rewrite Hid.
  cbn [default from_option id]. rewrite Hm.
  unfold requests_post, http_call. cbn [answered wire].
  unfold raise_for_status. rewrite Hs. unfold Response_json. rewrite Hb.
  unfold ret, answered. cbn [wire clock requested files].
  now rewrite <- app_assoc.
Qed.

(** X18. When the streaming API answers its call with an HTTP error,
    [upload] raises [VideodbError] "Error while uploading file", although
    the upload has been registered by then. *)
Theorem upload_fails_when_streaming_call_fails conn
    (file_path url media_type name description callback_url : option string)
    (w : World) (r rs : Response) later (entries : gmap string pyval)
    (media_id : string) :
  truthy_opt file_path = false ->
  truthy_opt url = true ->
  wire w = Returns r :: Returns rs :: later ->
  delivers r (PyDict entries) ->
  entries !! "id" = Some (PyStr media_id) ->
  startswith media_id "m-" = true ->
  http_error_status rs = true ->
  upload conn file_path url media_type name description callback_url w
  = Some (Raises (VideodbError "Error while uploading file" (Some (http_error rs))),
          answered [register_request conn (of_opt url) (of_opt name)
                      description callback_url media_type;
                    streaming_request conn (of_opt url) media_id] later w).
Proof.
  intros Hf Hu Hw Hd Hid Hm Hs.
  unfold upload. rewrite Hf, Hu. cbn [negb andb].
  unfold bind at 1, ret at 1. unfold bind at 1.
  rewrite (post_delivers _ _ _ _ _ _ _ Hw Hd).
  unfold upload_stream, try_except, bind, py_get, ret. rewrite Hid.
  cbn [default from_option id]. rewrite Hm.
  unfold requests_post, http_call. cbn [answered wire].
  unfold raise_for_status. rewrite Hs.
  unfold raise, answered. cbn [except_HTTPError isinstance_HTTPError cls].
  cbn [wire clock requested files].
  now rewrite <- app_assoc.
Qed.

(** X19. When the registration is acknowledged as an async job (the
    client returns [None]), [upload] raises [AttributeError]. *)
Theorem upload_of_async_job_raises_AttributeError conn
    (file_path url media_type name description callback_url : option string)
    (w : World) (r : Response) later (d : gmap string pyval) :
  truthy_opt file_path = false ->
  truthy_opt url = true ->
  wire w = Returns r :: later ->
  http_error_status r = false ->
  json_body r = Some (PyDict d) ->
  d !! "status" = Some (PyStr Status_processing) ->
  d !! "request_type" = Some (PyStr "async") ->
  upload conn file_path url media_type name description callback_url w
  = Some (Raises AttributeError,
          answered [register_request conn (of_opt url) (of_opt name)
                      description callback_url media_type] later w).
Proof.
  intros Hf Hu Hw Hs Hb Hst Hrt.
  unfold upload. rewrite Hf, Hu. cbn [negb andb].
  unfold bind at 1, ret at 1. unfold bind at 1.
  unfold Client.post, bind at 1, Client.with_json.
  rewrite lookup_empty. cbn [ret].
  rewrite (make_request_answered _ _ _ _ _ _ _ _ _ Hw Hs).
  unfold try_except at 1.
  rewrite (parse_response_async _ d) by trivial.
  reflexivity.
Qed.




(** X21. When the POST of the file to the upload URL is answered with an
    HTTP error, [upload] raises [VideodbError] "Error while uploading
    file" and registers nothing. *)
Theorem upload_of_file_fails_when_storage_refuses conn
    (p : string) (url media_type name description callback_url : option string)
    (w : World) (r1 r2 : Response) later (ud : gmap string pyval) (content : string) :
  p <> "" ->
  truthy_opt url = false ->
  wire w = Returns r1 :: Returns r2 :: later ->
  delivers r1 (PyDict ud) ->
  files w !! p = Some content ->
  http_error_status r2 = true ->
  upload conn (Some p) url media_type name description callback_url w
  = Some (Raises (VideodbError "Error while uploading file" (Some (http_error r2))),
          answered [upload_url_request conn
                      (if truthy_opt name then default "" name else name_of_path p);
                    file_post_request (default PyNone (ud !! "upload_url"))
                      (if truthy_opt name then default "" name else name_of_path p)
                      content]
                   later w).
Proof.
  intros Hp Hu Hw Hd Hf Hs.
  unfold upload. rewrite Hu. cbn [truthy_opt].
  rewrite bool_decide_eq_false_2 by exact Hp. cbn [negb andb].
  unfold bind at 1. unfold bind at 1. cbn [default from_option id].
  unfold upload_file, try_except. unfold bind at 1.
  rewrite (get_delivers _ _ _ _ _ _ _ Hw Hd).
  unfold bind, py_get, ret, open_rb. cbn [answered files]. rewrite Hf.
  unfold requests_post, http_call. cbn [answered wire].
  unfold raise_for_status. rewrite Hs.
  unfold raise, answered. cbn [except_HTTPError isinstance_HTTPError cls].
  cbn [wire clock requested files].
  now rewrite <- app_assoc.
Qed.

(** X22. An upload of a file asks for an upload URL, posts the file's
    name and content to it, and registers that upload URL under the
    name: the caller's name when given, the one read off the path
    otherwise. *)
Theorem upload_of_file_registers_the_upload_url conn
    (p : string) (url media_type name description callback_url : option string)
    (w : World) (r1 r2 r3 : Response) later (ud entries : gmap string pyval)
    (content : string) :
  p <> "" ->
  truthy_opt url = false ->
  wire w = Returns r1 :: Returns r2 :: Returns r3 :: later ->
  delivers r1 (PyDict ud) ->
  files w !! p = Some content ->
  http_error_status r2 = false ->
  delivers r3 (PyDict entries) ->
  entries !! "id" = None
  \/ (exists s, entries !! "id" = Some (PyStr s) /\ startswith s "m-" = false) ->
  upload conn (Some p) url media_type name description callback_url w
  = Some (Returns (PyDict entries),
          answered [upload_url_request conn
                      (if truthy_opt name then default "" name else name_of_path p);
                    file_post_request (default PyNone (ud !! "upload_url"))
                      (if truthy_opt name then default "" name else name_of_path p)
                      content;
                    register_request conn (default PyNone (ud !! "upload_url"))
                      (PyStr (if truthy_opt name then default "" name
                              else name_of_path p))
                      description callback_url media_type]
                   later w).
Proof.
  intros Hp Hu Hw Hd Hf Hs Hd3 Hid.
  unfold upload. rewrite Hu. cbn [truthy_opt].
  rewrite bool_decide_eq_false_2 by exact Hp. cbn [negb andb].
  unfold bind at 1. unfold bind at 1. cbn [default from_option id].
  unfold upload_file, try_except. unfold bind at 1.
  rewrite (get_delivers _ _ _ _ _ _ _ Hw Hd).
  unfold bind at 1, py_get at 1, ret at 1.
  unfold bind at 1, open_rb. cbn [answered files]. rewrite Hf.
  unfold bind at 1, requests_post, http_call. cbn [answered wire].
  unfold bind at 1, raise_for_status. rewrite Hs.
  unfold ret at 1. unfold ret at 1. unfold ret at 1. cbn [fst snd].
  unfold bind at 1.
  erewrite post_delivers; [| reflexivity | exact Hd3].
  rewrite upload_stream_skipped by exact Hid.
  unfold answered. cbn [wire clock requested files].
  now rewrite <- !app_assoc.
Qed.

End UploadFlow.

(** ** [HttpClient.__init__] and [class Video] *)

Section Init.
Context `{Builtins} `{Constants} `{RequestsDefaults}.




End Init.

Section VideoProps.
Context `{Builtins} `{Constants} `{VideoConstants}.

Lemma frames_of_items_dicts (kws : list (gmap string pyval)) w :
  Forall (fun kw : gmap string pyval => kw !! "self" = None) kws ->
  frames_of_items (PyDict <$> kws) w = Some (Returns (Frame.__init__ <$> kws), w).
Proof.
  induction kws as [|kw kws IH]; [reflexivity |]. intros Hself.
  inversion Hself as [|? ? Hkw Hrest]; subst.
  cbn [fmap list_fmap frames_of_items]. rewrite Hkw. unfold bind.
  change (list_fmap _ _ PyDict kws) with (PyDict <$> kws).
  rewrite (IH Hrest). reflexivity.
Qed.

(** One element with the key [self] makes the whole loop a [TypeError]. *)
Lemma frames_of_items_self_key (before : list (gmap string pyval))
    (kw : gmap string pyval) (rest : list pyval) w :
  Forall (fun kw : gmap string pyval => kw !! "self" = None) before ->
  kw !! "self" <> None ->
  frames_of_items ((PyDict <$> before) ++ PyDict kw :: rest) w
  = Some (Raises TypeError, w).
Proof.
  intros Hbefore Hkw.
  induction before as [|k before IH].
  - cbn [fmap list_fmap app frames_of_items].
    destruct (kw !! "self"); [reflexivity | congruence].
  - inversion Hbefore as [|? ? Hk Hrest]; subst.
    cbn [fmap list_fmap app frames_of_items]. rewrite Hk. unfold bind.
    change (list_fmap _ _ PyDict before) with (PyDict <$> before).
    rewrite (IH Hrest). reflexivity.
Qed.

(** X23. [generate_stream] with a non-empty timeline does not use the
    cached stream URL: it posts the timeline and the video's length, and
    returns the [stream_url] of the answer ([None] when the answer has
    none). *)
Theorem generate_stream_with_timeline_asks_the_server (self : Video.t)
    (timeline : pyval) (w : World) (r : Response) later (sd : gmap string pyval) :
  truthy timeline = true ->
  wire w = Returns r :: later ->
  delivers r (PyDict sd) ->
  Video.generate_stream self timeline w
  = Some (Returns (default PyNone (sd !! "stream_url")),
          answered
            [Client.request_of (client (Video._connection self)) POST
               (ApiPath_video +:+ "/" +:+ Video.id self +:+ "/" +:+ ApiPath_stream)
               None None
               (<["json" := PyDict (<["timeline" := timeline]>
                                   (<["length" := Video.length self]> ∅))]> ∅)]
            later w).
Proof.
  intros Ht Hw Hd. unfold Video.generate_stream. rewrite Ht. cbn [negb andb].
  unfold bind. rewrite (post_delivers _ _ _ _ _ _ _ Hw Hd). reflexivity.
Qed.

(** X24. [generate_thumbnail] asks the server once: the thumbnail URL of
    the first call is kept on the video, and a second call returns it
    with no further request. *)
Theorem generate_thumbnail_fetches_once (self : Video.t) (w : World)
    (r : Response) later (td : gmap string pyval) (u : pyval) :
  truthy (Video.thumbnail_url self) = false ->
  wire w = Returns r :: later ->
  delivers r (PyDict td) ->
  td !! "thumbnail_url" = Some u ->
  truthy u = true ->
  (let* first := Video.generate_thumbnail self in
   Video.generate_thumbnail first.2) w
  = Some (Returns (u, Video.set_thumbnail_url u self),
          answered
            [Client.request_of (client (Video._connection self)) GET
               (ApiPath_video +:+ "/" +:+ Video.id self +:+ "/" +:+ ApiPath_thumbnail)
               None None ∅]
            later w).
Proof.
  intros Hc Hw Hd Hu Ht. unfold bind at 1.
  unfold Video.generate_thumbnail at 1. rewrite Hc. unfold bind at 1.
  rewrite (get_delivers _ _ _ _ _ _ _ Hw Hd).
  unfold bind, py_get, ret. rewrite Hu. cbn [default from_option id snd].
  unfold Video.generate_thumbnail. cbn [Video.set_thumbnail_url Video.thumbnail_url].
  rewrite Ht. reflexivity.
Qed.

(** X25. On a video with a cached transcript, [get_transcript] and
    [get_transcript_text] return the cached values and make no request,
    whatever [force] is: [force] reaches [_fetch_transcript] as its
    language code. *)
Theorem get_transcript_ignores_force (self : Video.t) (force : pyval) (w : World) :
  truthy (Video.transcript self) = true ->
  Video.get_transcript self force w = Some (Returns (Video.transcript self, self), w)
  /\ Video.get_transcript_text self force w
     = Some (Returns (Video.transcript_text self, self), w).
Proof.
  intros Ht.
  unfold Video.get_transcript, Video.get_transcript_text, Video._fetch_transcript, bind.
  rewrite Ht. split; reflexivity.
Qed.

(** X26. After [delete_scene_index] the video has no cached scenes:
    [get_scenes] asks the server again, even if scenes were cached
    before. *)
Theorem delete_scene_index_forgets_cached_scenes (self : Video.t)
    (deleted_model scene_model : string) (custom_index_id : option string)
    (w : World) (r1 r2 : Response) later (v1 v2 : pyval) :
  wire w = Returns r1 :: Returns r2 :: later ->
  delivers r1 v1 ->
  delivers r2 v2 ->
  (let* cleared := Video.delete_scene_index self deleted_model in
   Video.get_scenes cleared.2 scene_model custom_index_id) w
  = Some (Returns (if truthy v2 then v2 else PyNone, Video.set_scenes v2 self),
          answered
            [Client.request_of (client (Video._connection self)) POST
               ((ApiPath_video +:+ "/" +:+ Video.id self +:+ "/" +:+ ApiPath_index)
                +:+ "/" +:+ ApiPath_delete)
               None None
               (<["json" := PyDict (<["index_type" := PyStr IndexType_scene]>
                                   (<["model_name" := PyStr deleted_model]> ∅))]> ∅);
             Client.request_of (client (Video._connection self)) GET
               (ApiPath_video +:+ "/" +:+ Video.id self +:+ "/" +:+ ApiPath_index)
               None None (Video.scene_params scene_model custom_index_id)]
            later w).
Proof.
  intros Hw Hd1 Hd2. unfold bind at 1.
  unfold Video.delete_scene_index. unfold bind at 1.
  rewrite (post_delivers _ _ _ _ _ _ _ Hw Hd1). cbn [ret snd].
  unfold Video.get_scenes. cbn [Video.set_scenes Video.scenes truthy].
  unfold bind.
  erewrite get_delivers; [| reflexivity | exact Hd2].
  unfold ret, answered. cbn [wire clock requested files].
  now rewrite <- app_assoc.
Qed.

(** X27. When the server answers [get_scenes] with an empty (falsy)
    result, [get_scenes] returns [None], and the next call asks the server
    again. *)
Theorem get_scenes_does_not_cache_an_empty_result (self : Video.t)
    (scene_model : string) (custom_index_id : option string)
    (w : World) (r1 r2 : Response) later (v1 v2 : pyval) :
  truthy (Video.scenes self) = false ->
  wire w = Returns r1 :: Returns r2 :: later ->
  delivers r1 v1 ->
  truthy v1 = false ->
  delivers r2 v2 ->
  Video.get_scenes self scene_model custom_index_id w
  = Some (Returns (PyNone, Video.set_scenes v1 self),
          answered
            [Client.request_of (client (Video._connection self)) GET
               (ApiPath_video +:+ "/" +:+ Video.id self +:+ "/" +:+ ApiPath_index)
               None None (Video.scene_params scene_model custom_index_id)]
            (Returns r2 :: later) w)
  /\ (let* first := Video.get_scenes self scene_model custom_index_id in
      Video.get_scenes first.2 scene_model custom_index_id) w
     = Some (Returns (if truthy v2 then v2 else PyNone, Video.set_scenes v2 self),
             answered
               [Client.request_of (client (Video._connection self)) GET
                  (ApiPath_video +:+ "/" +:+ Video.id self +:+ "/" +:+ ApiPath_index)
                  None None (Video.scene_params scene_model custom_index_id);
                Client.request_of (client (Video._connection self)) GET
                  (ApiPath_video +:+ "/" +:+ Video.id self +:+ "/" +:+ ApiPath_index)
                  None None (Video.scene_params scene_model custom_index_id)]
               later w).
Proof.
  intros Hc Hw Hd1 Hf Hd2.
  assert (Video.get_scenes self scene_model custom_index_id w
          = Some (Returns (PyNone, Video.set_scenes v1 self),
                  answered
                    [Client.request_of (client (Video._connection self)) GET
                       (ApiPath_video +:+ "/" +:+ Video.id self +:+ "/" +:+ ApiPath_index)
                       None None (Video.scene_params scene_model custom_index_id)]
                    (Returns r2 :: later) w)) as First.
  { unfold Video.get_scenes. rewrite Hc. unfold bind.
    rewrite (get_delivers _ _ _ _ _ _ _ Hw Hd1). cbn [ret]. now rewrite Hf. }
  split; [exact First |].
  unfold bind at 1. rewrite First. cbn [snd].
  unfold Video.get_scenes. cbn [Video.set_scenes Video.scenes]. rewrite Hf.
  unfold bind.
  erewrite get_delivers; [| reflexivity | exact Hd2].
  unfold ret, answered. cbn [wire clock requested files].
  now rewrite <- app_assoc.
Qed.

(** X28. When the answered list holds objects, none with the key [self],
    [extract_frames] returns one [Frame] for each element, in order, built
    from the element's keys; the [callback_url] argument is not sent. *)
Theorem extract_frames_builds_one_frame_per_element (self : Video.t)
    (extraction_type : string) (extraction_config : pyval)
    (custom_index_id : option string) (force : bool) (callback_url : option string)
    (w : World) (r : Response) later (kws : list (gmap string pyval)) :
  wire w = Returns r :: later ->
  delivers r (PyList (PyDict <$> kws)) ->
  Forall (fun kw : gmap string pyval => kw !! "self" = None) kws ->
  Video.extract_frames self extraction_type extraction_config custom_index_id
    force callback_url w
  = Some (Returns (Frame.__init__ <$> kws),
          answered
            [Client.request_of (client (Video._connection self)) POST
               (ApiPath_video +:+ "/" +:+ Video.id self +:+ "/"
                +:+ ApiPath_generate_scenes)
               None None
               (<["json" := PyDict (<["custom_index_id" := of_opt custom_index_id]>
                                   (<["extraction_type" := PyStr extraction_type]>
                                   (<["extraction_config" := extraction_config]>
                                   (<["force" := PyBool force]> ∅))))]> ∅)]
            later w).
Proof.
  intros Hw Hd Hself. unfold Video.extract_frames, bind.
  rewrite (post_delivers _ _ _ _ _ _ _ Hw Hd).
  cbn [frames_of]. now rewrite frames_of_items_dicts.
Qed.

(** X29. On a video with a cached transcript, [index_spoken_words] makes
    one call, the POST of the semantic index type, and returns [None]
    whatever data the server answers with. *)
Theorem index_spoken_words_posts_once (self : Video.t) (language_code : pyval)
    (w : World) (r : Response) later (v : pyval) :
  truthy (Video.transcript self) = true ->
  wire w = Returns r :: later ->
  delivers r v ->
  Video.index_spoken_words self language_code w
  = Some (Returns (PyNone, self),
          answered
            [Client.request_of (client (Video._connection self)) POST
               (ApiPath_video +:+ "/" +:+ Video.id self +:+ "/" +:+ ApiPath_index)
               None None
               (<["json" := PyDict (<["index_type" := PyStr IndexType_semantic]> ∅)]> ∅)]
            later w).
Proof.
  intros Ht Hw Hd.
  unfold Video.index_spoken_words, Video._fetch_transcript. rewrite Ht.
  cbn [truthy negb andb]. unfold bind at 1, ret at 1. unfold bind.
  rewrite (post_delivers _ _ _ _ _ _ _ Hw Hd). reflexivity.
Qed.

End VideoProps.

(** ** Closed instances *)

Lemma delivers_ok (v : pyval) : @delivers Sample.constants (Cases.ok v) v.
Proof.
  split; [reflexivity |].
  exists (<["success" := PyBool true]> (<["data" := v]> ∅)), (PyBool true).
  repeat split; try reflexivity. vm_compute. discriminate.
Qed.

Lemma transport_failure_raises_invalid_request_witness :
  fst <$> @Client._make_request Sample.builtins Sample.constants Sample.http GET
            "video" None None ∅
            (Sample.world [Raises (Requests Cases.timed_out)] [])
  = Some (Raises (InvalidRequestError "Invalid request: Request timed out" None)).
Proof.
  destruct (@transport_failure_raises_invalid_request Sample.builtins Sample.constants
              Sample.http GET "video" None None ∅
              (Sample.world [Raises (Requests Cases.timed_out)] [])
              Cases.timed_out [] eq_refl ltac:(discriminate))
    as (m & E & _ & Hm & _ & _).
  rewrite E, (Hm (or_intror eq_refl)). reflexivity.
Defined.


Lemma undecodable_body_raises_invalid_request_witness :
  fst <$> @Client._make_request Sample.builtins Sample.constants Sample.http GET
            "video" None None ∅ (Sample.world [Returns Cases.garbled] [])
  = Some (Raises (InvalidRequestError "Invalid request: <html>" (Some Cases.garbled))).
Proof.
  rewrite (@undecodable_body_raises_invalid_request Sample.builtins Sample.constants
             Sample.http GET "video" None None ∅
             (Sample.world [Returns Cases.garbled] []) Cases.garbled []
             eq_refl eq_refl eq_refl).
  reflexivity.
Defined.

Lemma non_object_body_raises_AttributeError_witness :
  fst <$> @Client._make_request Sample.builtins Sample.constants Sample.http GET
            "video" None None ∅
            (Sample.world [Returns (Sample.reply 200 "[]" (Some (PyList [])))] [])
  = Some (Raises AttributeError).
Proof.
  rewrite (@non_object_body_raises_AttributeError Sample.builtins Sample.constants
             Sample.http GET "video" None None ∅
             (Sample.world [Returns (Sample.reply 200 "[]" (Some (PyList [])))] [])
             (Sample.reply 200 "[]" (Some (PyList []))) [] (PyList [])
             eq_refl eq_refl eq_refl ltac:(discriminate)).
  reflexivity.
Defined.

Lemma sync_job_without_data_raises_AttributeError_witness :
  fst <$> @Client._make_request Sample.builtins Sample.constants Sample.http GET
            "video" None None ∅
            (Sample.world
               [Returns (Sample.reply 200 "" (Some (PyDict Cases.job_without_data)))] [])
  = Some (Raises AttributeError).
Proof.
  rewrite (@sync_job_without_data_raises_AttributeError Sample.builtins Sample.constants
             Sample.http GET "video" None None ∅
             (Sample.world
                [Returns (Sample.reply 200 "" (Some (PyDict Cases.job_without_data)))] [])
             (Sample.reply 200 "" (Some (PyDict Cases.job_without_data))) []
             Cases.job_without_data
             eq_refl eq_refl eq_refl eq_refl (or_introl eq_refl)
             ltac:(intros data; vm_compute; discriminate)).
  reflexivity.
Defined.

Lemma get_output_retries_failed_tries_witness :
  fst <$> @Client._get_output Sample.constants (PyStr "https://poll")
            (Sample.world
               [Raises (Requests Cases.unreachable); Returns Cases.garbled;
                Returns (Sample.reply 200 "" (Some (PyDict Sample.done)))]
               [0; 1000000; 3000000])
  = Some (Returns (PyDict Sample.done)).
Proof.
  rewrite (@get_output_retries_failed_tries Sample.constants (PyStr "https://poll")
             (Sample.world
                [Raises (Requests Cases.unreachable); Returns Cases.garbled;
                 Returns (Sample.reply 200 "" (Some (PyDict Sample.done)))]
                [0; 1000000; 3000000])
             [Raises (Requests Cases.unreachable); Returns Cases.garbled]
             [0; 1000000] 3000000
             (Sample.reply 200 "" (Some (PyDict Sample.done))) Sample.done [] []
             eq_refl eq_refl eq_refl
             ltac:(repeat constructor; discriminate)
             ltac:(repeat constructor)
             eq_refl eq_refl).
  reflexivity.
Defined.

Lemma get_output_gives_up_with_last_exception_witness :
  fst <$> @Client._get_output Sample.constants (PyStr "https://poll")
            (Sample.world
               [Returns (Sample.reply 200 "" (Some (PyDict Sample.still_running)));
                Raises (Requests Cases.unreachable)]
               [0; 500000000])
  = Some (Raises (Requests Cases.unreachable)).
Proof.
  rewrite (@get_output_gives_up_with_last_exception Sample.constants
             (PyStr "https://poll")
             (Sample.world
                [Returns (Sample.reply 200 "" (Some (PyDict Sample.still_running)));
                 Raises (Requests Cases.unreachable)]
                [0; 500000000])
             [Returns (Sample.reply 200 "" (Some (PyDict Sample.still_running)))]
             [0] 500000000 (Raises (Requests Cases.unreachable))
             (Requests Cases.unreachable) [] []
             eq_refl eq_refl eq_refl
             ltac:(repeat constructor; discriminate)
             ltac:(repeat constructor)
             eq_refl ltac:(lia)).
  reflexivity.
Defined.

Lemma undecodable_poll_at_give_up_reports_first_body_witness :
  fst <$> @Client._make_request Sample.builtins Sample.constants Sample.http GET
            "video" None None ∅
            (Sample.world
               [Returns (Sample.reply 200 "first" (Some (PyDict Sample.job)));
                Returns Cases.garbled]
               [500000000])
  = Some (Raises (InvalidRequestError "Invalid request: first"
                    (Some (Sample.reply 200 "first" (Some (PyDict Sample.job)))))).
Proof.
  rewrite (@undecodable_poll_at_give_up_reports_first_body
             Sample.builtins Sample.constants Sample.http GET "video" None None ∅
             (Sample.world
                [Returns (Sample.reply 200 "first" (Some (PyDict Sample.job)));
                 Returns Cases.garbled]
                [500000000])
             (Sample.reply 200 "first" (Some (PyDict Sample.job)))
             Sample.job {["output_url" := PyStr "https://poll"]} "https://poll"
             [] [] 500000000 Cases.garbled [] []
             eq_refl eq_refl eq_refl eq_refl eq_refl eq_refl (or_introl eq_refl)
             eq_refl eq_refl
             ltac:(constructor) ltac:(constructor)
             eq_refl ltac:(lia)).
  reflexivity.
Defined.

Lemma connection_error_at_give_up_is_typed_witness :
  fst <$> @Client._make_request Sample.builtins Sample.constants Sample.http GET
            "video" None None ∅
            (Sample.world
               [Returns (Sample.reply 200 "" (Some (PyDict Sample.job)));
                Raises (Requests Cases.unreachable)]
               [500000000])
  = Some (Raises (InvalidRequestError "Invalid request: Connection error" None)).
Proof.
  rewrite (@connection_error_at_give_up_is_typed
             Sample.builtins Sample.constants Sample.http GET "video" None None ∅
             (Sample.world
                [Returns (Sample.reply 200 "" (Some (PyDict Sample.job)));
                 Raises (Requests Cases.unreachable)]
                [500000000])
             (Sample.reply 200 "" (Some (PyDict Sample.job)))
             Sample.job {["output_url" := PyStr "https://poll"]} "https://poll"
             [] [] 500000000 Cases.unreachable [] []
             eq_refl eq_refl eq_refl eq_refl eq_refl eq_refl (or_introl eq_refl)
             eq_refl eq_refl
             ltac:(constructor) ltac:(constructor)
             eq_refl ltac:(lia)).
  reflexivity.
Defined.

Lemma make_request_only_polls_after_its_request_witness :
  exists (U : pyval) (n : nat),
    [@Client.request_of Sample.constants Sample.http GET "video" None None ∅;
     plain_get (PyStr "https://poll"); plain_get (PyStr "https://poll")]
    = [] ++ @Client.request_of Sample.constants Sample.http GET "video" None None ∅
            :: repeat (plain_get U) n
    /\ (∅ : gmap string string) = ∅.
Proof.
  exact (@make_request_only_polls_after_its_request Sample.builtins Sample.constants
           Sample.http GET "video" None None ∅
           (Sample.world
              [Returns (Sample.reply 200 "" (Some (PyDict Sample.job)));
               Returns (Sample.reply 200 "" (Some (PyDict Sample.still_running)));
               Returns (Sample.reply 200 "" (Some (PyDict Sample.done)))]
              [0; 1000000])
           {| wire := []; clock := [];
              requested :=
                [@Client.request_of Sample.constants Sample.http GET "video"
                   None None ∅;
                 plain_get (PyStr "https://poll"); plain_get (PyStr "https://poll")];
              files := ∅ |}
           (Returns (PyInt 7)) eq_refl).
Defined.

Lemma name_of_path_ignores_directory_witness :
  name_of_path ("clips/2024" +:+ "/" +:+ "intro.final.mp4") = "intro".
Proof.
  rewrite (name_of_path_ignores_directory "clips/2024" "intro.final.mp4" ltac:(reflexivity)).
  reflexivity.
Defined.

Lemma upload_by_url_registers_once_witness :
  fst <$> @upload Sample.builtins Sample.constants Sample.environ Sample.connection
            None (Some "https://host/clip.mp4") None None None None
            (Sample.world [Returns (Cases.ok (PyDict {["id" := PyStr "v-9"]}))] [])
  = Some (Returns (PyDict {["id" := PyStr "v-9"]})).
Proof.
  rewrite (@upload_by_url_registers_once Sample.builtins Sample.constants
             Sample.environ Sample.connection
             None (Some "https://host/clip.mp4") None None None None
             (Sample.world [Returns (Cases.ok (PyDict {["id" := PyStr "v-9"]}))] [])
             (Cases.ok (PyDict {["id" := PyStr "v-9"]})) [] {["id" := PyStr "v-9"]}
             ltac:(reflexivity) ltac:(reflexivity) ltac:(reflexivity) (delivers_ok _)
             ltac:(right; exists "v-9"; split; reflexivity)).
  reflexivity.
Defined.

Lemma upload_by_url_adds_stream_url_witness :
  fst <$> @upload Sample.builtins Sample.constants Sample.environ Sample.connection
            None (Some "https://host/clip.mp4") None None None None
            (Sample.world
               [Returns (Cases.ok (PyDict {["id" := PyStr "m-9"]}));
                Returns (Sample.reply 200 ""
                           (Some (PyDict {["stream_url" := PyStr "https://stream/9"]})))]
               [])
  = Some (Returns (PyDict (<["stream_url" := PyStr "https://stream/9"]>
                             {["id" := PyStr "m-9"]}))).
Proof.
  rewrite (@upload_by_url_adds_stream_url Sample.builtins Sample.constants
             Sample.environ Sample.connection
             None (Some "https://host/clip.mp4") None None None None
             (Sample.world
                [Returns (Cases.ok (PyDict {["id" := PyStr "m-9"]}));
                 Returns (Sample.reply 200 ""
                            (Some (PyDict {["stream_url" := PyStr "https://stream/9"]})))]
                [])
             (Cases.ok (PyDict {["id" := PyStr "m-9"]}))
             (Sample.reply 200 ""
                (Some (PyDict {["stream_url" := PyStr "https://stream/9"]})))
             [] {["id" := PyStr "m-9"]} {["stream_url" := PyStr "https://stream/9"]}
             "m-9"
             ltac:(reflexivity) ltac:(reflexivity) ltac:(reflexivity) (delivers_ok _) ltac:(reflexivity) ltac:(reflexivity) ltac:(reflexivity) ltac:(reflexivity)).
  reflexivity.
Defined.

Lemma upload_fails_when_streaming_call_fails_witness :
  fst <$> @upload Sample.builtins Sample.constants Sample.environ Sample.connection
            None (Some "https://host/clip.mp4") None None None None
            (Sample.world
               [Returns (Cases.ok (PyDict {["id" := PyStr "m-9"]}));
                Returns Cases.unavailable] [])
  = Some (Raises (VideodbError "Error while uploading file"
                    (Some (http_error Cases.unavailable)))).
Proof.
  rewrite (@upload_fails_when_streaming_call_fails Sample.builtins Sample.constants
             Sample.environ Sample.connection
             None (Some "https://host/clip.mp4") None None None None
             (Sample.world
                [Returns (Cases.ok (PyDict {["id" := PyStr "m-9"]}));
                 Returns Cases.unavailable] [])
             (Cases.ok (PyDict {["id" := PyStr "m-9"]})) Cases.unavailable
             [] {["id" := PyStr "m-9"]} "m-9"
             ltac:(reflexivity) ltac:(reflexivity) ltac:(reflexivity) (delivers_ok _) ltac:(reflexivity) ltac:(reflexivity) ltac:(reflexivity)).
  reflexivity.
Defined.

Lemma upload_of_async_job_raises_AttributeError_witness :
  fst <$> @upload Sample.builtins Sample.constants Sample.environ Sample.connection
            None (Some "https://host/clip.mp4") None None None None
            (Sample.world
               [Returns (Sample.reply 200 "" (Some (PyDict Sample.async_ack)))] [])
  = Some (Raises AttributeError).
Proof.
  rewrite (@upload_of_async_job_raises_AttributeError Sample.builtins Sample.constants
             Sample.environ Sample.connection
             None (Some "https://host/clip.mp4") None None None None
             (Sample.world
                [Returns (Sample.reply 200 "" (Some (PyDict Sample.async_ack)))] [])
             (Sample.reply 200 "" (Some (PyDict Sample.async_ack))) [] Sample.async_ack
             ltac:(reflexivity) ltac:(reflexivity) ltac:(reflexivity) ltac:(reflexivity) ltac:(reflexivity) ltac:(reflexivity) ltac:(reflexivity)).
  reflexivity.
Defined.


Lemma upload_of_file_fails_when_storage_refuses_witness :
  fst <$> @upload Sample.builtins Sample.constants Sample.environ Sample.connection
            (Some "clips/intro.final.mp4") None None None None None
            {| wire :=
                 [Returns (Cases.ok (PyDict {["upload_url" := PyStr "https://store/put"]}));
                  Returns Cases.unavailable];
               clock := []; requested := [];
               files := {["clips/intro.final.mp4" := "frames"]} |}
  = Some (Raises (VideodbError "Error while uploading file"
                    (Some (http_error Cases.unavailable)))).
Proof.
  rewrite (@upload_of_file_fails_when_storage_refuses
             Sample.builtins Sample.constants Sample.environ Sample.connection
             "clips/intro.final.mp4" None None None None None
             {| wire :=
                  [Returns (Cases.ok (PyDict {["upload_url" := PyStr "https://store/put"]}));
                   Returns Cases.unavailable];
                clock := []; requested := [];
                files := {["clips/intro.final.mp4" := "frames"]} |}
             (Cases.ok (PyDict {["upload_url" := PyStr "https://store/put"]}))
             Cases.unavailable []
             {["upload_url" := PyStr "https://store/put"]} "frames"
             ltac:(discriminate) ltac:(reflexivity) ltac:(reflexivity) (delivers_ok _) ltac:(reflexivity) ltac:(reflexivity)).
  reflexivity.
Defined.

Lemma upload_of_file_registers_the_upload_url_witness :
  requested <$> (snd <$>
    @upload Sample.builtins Sample.constants Sample.environ Sample.connection
      (Some "clips/intro.final.mp4") None None None None None
      {| wire :=
           [Returns (Cases.ok (PyDict {["upload_url" := PyStr "https://store/put"]}));
            Returns (Sample.reply 200 "" None);
            Returns (Cases.ok (PyDict {["id" := PyStr "v-9"]}))];
         clock := []; requested := [];
         files := {["clips/intro.final.mp4" := "frames"]} |})
  = Some [@upload_url_request Sample.constants Sample.connection "intro";
          file_post_request (PyStr "https://store/put") "intro" "frames";
          @register_request Sample.constants Sample.connection
            (PyStr "https://store/put") (PyStr "intro") None None None].
Proof.
  rewrite (@upload_of_file_registers_the_upload_url
             Sample.builtins Sample.constants Sample.environ Sample.connection
             "clips/intro.final.mp4" None None None None None
             {| wire :=
                  [Returns (Cases.ok (PyDict {["upload_url" := PyStr "https://store/put"]}));
                   Returns (Sample.reply 200 "" None);
                   Returns (Cases.ok (PyDict {["id" := PyStr "v-9"]}))];
                clock := []; requested := [];
                files := {["clips/intro.final.mp4" := "frames"]} |}
             (Cases.ok (PyDict {["upload_url" := PyStr "https://store/put"]}))
             (Sample.reply 200 "" None)
             (Cases.ok (PyDict {["id" := PyStr "v-9"]})) []
             {["upload_url" := PyStr "https://store/put"]} {["id" := PyStr "v-9"]}
             "frames"
             ltac:(discriminate) ltac:(reflexivity) ltac:(reflexivity) (delivers_ok _) ltac:(reflexivity) ltac:(reflexivity)
             (delivers_ok _)
             ltac:(right; exists "v-9"; split; reflexivity)).
  reflexivity.
Defined.

Lemma generate_stream_with_timeline_asks_the_server_witness :
  fst <$> @Video.generate_stream Sample.builtins Sample.constants Cases.video_constants
            Cases.video (PyList [PyList [PyInt 0; PyInt 10]])
            (Sample.world
               [Returns (Cases.ok (PyDict {["stream_url" := PyStr "https://stream/cut"]}))]
               [])
  = Some (Returns (PyStr "https://stream/cut")).
Proof.
  rewrite (@generate_stream_with_timeline_asks_the_server
             Sample.builtins Sample.constants Cases.video_constants
             Cases.video (PyList [PyList [PyInt 0; PyInt 10]])
             (Sample.world
                [Returns (Cases.ok (PyDict {["stream_url" := PyStr "https://stream/cut"]}))]
                [])
             (Cases.ok (PyDict {["stream_url" := PyStr "https://stream/cut"]})) []
             {["stream_url" := PyStr "https://stream/cut"]}
             ltac:(reflexivity) ltac:(reflexivity) (delivers_ok _)).
  reflexivity.
Defined.

Lemma generate_thumbnail_fetches_once_witness :
  fst <$> (let* first := @Video.generate_thumbnail Sample.builtins Sample.constants
                           Cases.video_constants Cases.video in
           @Video.generate_thumbnail Sample.builtins Sample.constants
             Cases.video_constants first.2)
            (Sample.world
               [Returns (Cases.ok (PyDict {["thumbnail_url" := PyStr "https://img/1"]}))]
               [])
  = Some (Returns (PyStr "https://img/1",
                   Video.set_thumbnail_url (PyStr "https://img/1") Cases.video)).
Proof.
  rewrite (@generate_thumbnail_fetches_once
             Sample.builtins Sample.constants Cases.video_constants Cases.video
             (Sample.world
                [Returns (Cases.ok (PyDict {["thumbnail_url" := PyStr "https://img/1"]}))]
                [])
             (Cases.ok (PyDict {["thumbnail_url" := PyStr "https://img/1"]})) []
             {["thumbnail_url" := PyStr "https://img/1"]} (PyStr "https://img/1")
             ltac:(reflexivity) ltac:(reflexivity) (delivers_ok _) ltac:(reflexivity) ltac:(reflexivity)).
  reflexivity.
Defined.

Lemma get_transcript_ignores_force_witness :
  @Video.get_transcript Sample.builtins Sample.constants Cases.video_constants
    Cases.video (PyBool true) (Sample.world [] [])
  = Some (Returns (Video.transcript Cases.video, Cases.video), Sample.world [] []).
Proof.
  exact (proj1 (@get_transcript_ignores_force
                  Sample.builtins Sample.constants Cases.video_constants
                  Cases.video (PyBool true) (Sample.world [] []) ltac:(reflexivity))).
Defined.

Lemma delete_scene_index_forgets_cached_scenes_witness :
  fst <$> (let* cleared := @Video.delete_scene_index Sample.builtins Sample.constants
                             Cases.video_constants
                             (Video.set_scenes (PyList [PyInt 1]) Cases.video) "gpt4" in
           @Video.get_scenes Sample.builtins Sample.constants Cases.video_constants
             cleared.2 "gpt4" None)
            (Sample.world [Returns (Cases.ok PyNone);
                           Returns (Cases.ok (PyList [PyInt 2]))] [])
  = Some (Returns (PyList [PyInt 2], Video.set_scenes (PyList [PyInt 2]) Cases.video)).
Proof.
  rewrite (@delete_scene_index_forgets_cached_scenes
             Sample.builtins Sample.constants Cases.video_constants
             (Video.set_scenes (PyList [PyInt 1]) Cases.video) "gpt4" "gpt4" None
             (Sample.world [Returns (Cases.ok PyNone);
                            Returns (Cases.ok (PyList [PyInt 2]))] [])
             (Cases.ok PyNone) (Cases.ok (PyList [PyInt 2])) []
             PyNone (PyList [PyInt 2])
             ltac:(reflexivity) (delivers_ok _) (delivers_ok _)).
  reflexivity.
Defined.

Lemma get_scenes_does_not_cache_an_empty_result_witness :
  fst <$> (let* first := @Video.get_scenes Sample.builtins Sample.constants
                           Cases.video_constants Cases.video "gpt4" None in
           @Video.get_scenes Sample.builtins Sample.constants Cases.video_constants
             first.2 "gpt4" None)
            (Sample.world [Returns (Cases.ok (PyList []));
                           Returns (Cases.ok (PyList [PyInt 2]))] [])
  = Some (Returns (PyList [PyInt 2], Video.set_scenes (PyList [PyInt 2]) Cases.video)).
Proof.
  rewrite (proj2 (@get_scenes_does_not_cache_an_empty_result
             Sample.builtins Sample.constants Cases.video_constants
             Cases.video "gpt4" None
             (Sample.world [Returns (Cases.ok (PyList []));
                            Returns (Cases.ok (PyList [PyInt 2]))] [])
             (Cases.ok (PyList [])) (Cases.ok (PyList [PyInt 2])) []
             (PyList []) (PyList [PyInt 2])
             ltac:(reflexivity) ltac:(reflexivity) (delivers_ok _) ltac:(reflexivity) (delivers_ok _))).
  reflexivity.
Defined.

Lemma extract_frames_builds_one_frame_per_element_witness :
  fst <$> @Video.extract_frames Sample.builtins Sample.constants Cases.video_constants
            Cases.video "scene" (PyDict ∅) None false (Some "https://hook")
            (Sample.world
               [Returns (Cases.ok (PyList [PyDict {["frame_no" := PyInt 1]};
                                           PyDict {["frame_no" := PyInt 2]}]))] [])
  = Some (Returns [Frame.__init__ {["frame_no" := PyInt 1]};
                   Frame.__init__ {["frame_no" := PyInt 2]}]).
Proof.
  rewrite (@extract_frames_builds_one_frame_per_element
             Sample.builtins Sample.constants Cases.video_constants
             Cases.video "scene" (PyDict ∅) None false (Some "https://hook")
             (Sample.world
                [Returns (Cases.ok (PyList [PyDict {["frame_no" := PyInt 1]};
                                            PyDict {["frame_no" := PyInt 2]}]))] [])
             (Cases.ok (PyList [PyDict {["frame_no" := PyInt 1]};
                                PyDict {["frame_no" := PyInt 2]}])) []
             [{["frame_no" := PyInt 1]}; {["frame_no" := PyInt 2]}]
             ltac:(reflexivity) (delivers_ok _)
             ltac:(repeat constructor)).
  reflexivity.
Defined.

Lemma index_spoken_words_posts_once_witness :
  fst <$> @Video.index_spoken_words Sample.builtins Sample.constants
            Cases.video_constants Cases.video (PyStr "en_us")
            (Sample.world [Returns (Cases.ok (PyDict {["indexed" := PyBool true]}))] [])
  = Some (Returns (PyNone, Cases.video)).
Proof.
  rewrite (@index_spoken_words_posts_once
             Sample.builtins Sample.constants Cases.video_constants
             Cases.video (PyStr "en_us")
             (Sample.world [Returns (Cases.ok (PyDict {["indexed" := PyBool true]}))] [])
             (Cases.ok (PyDict {["indexed" := PyBool true]})) []
             (PyDict {["indexed" := PyBool true]})
             ltac:(reflexivity) ltac:(reflexivity) (delivers_ok _)).
  reflexivity.
Defined.
